(** * otread: conversion of an OTB+ recording into a YAML header and a CSV table

    A shallow embedding of [src/otread/otread.py] and the properties of its
    pipeline: the pre-existing-output guard, the header loop over the
    [signal] nodes of [form_dock00.xml], the numeric coercion of the header
    lists, the decoding of the raw [int16] sample file, the per-channel
    calibration, the time column and the two output files.

    Python floats and NumPy [float64] are IEEE binary64 numbers: they are the
    primitive [float] of the kernel, so every numeric example below is
    computed with the arithmetic the program runs on. *)

From Stdlib Require Import ZArith PrimFloat FloatOps SpecFloat.
From Stdlib.Strings Require Import Byte Ascii.
From stdpp Require Import gmap strings list.

Local Open Scope string_scope.
Local Open Scope list_scope.
Local Open Scope Z_scope.

(** ** Exceptions and results *)

(** The exceptions [otread] can raise. Lines 34 and 101 both raise the plain
    [Exception] class, with different messages: they are told apart here as
    [AlreadyProcessed] (line 34) and [UnrecognizedUnit] (line 101). The other
    constructors are the built-in exception classes. *)
Inductive pyerr : Set :=
  | AlreadyProcessed
  | UnrecognizedUnit
  | UnboundLocalError
  | AttributeError
  | TypeError
  | ValueError
  | ZeroDivisionError
  | OverflowError
  | IndexError
  | FileNotFoundError
  | ReadError.

Inductive result (A : Type) : Type :=
  | Ok (a : A)
  | Err (e : pyerr).
Arguments Ok {A} a.
Arguments Err {A} e.

#[global] Instance result_ret : MRet result := fun A a => Ok a.
#[global] Instance result_bind : MBind result := fun A B f m =>
  match m with
  | Ok a => f a
  | Err e => Err e
  end.

Definition is_Err {A} (r : result A) : Prop := ∃ e, r = Err e.

(** [mapR f l] converts the elements of [l] from left to right and stops at
    the first one that raises. *)
Fixpoint mapR {A B} (f : A → result B) (l : list A) : result (list B) :=
  match l with
  | [] => Ok []
  | x :: l' => y ← f x; ys ← mapR f l'; Ok (y :: ys)
  end.

(** [l[n]] on a Python list or NumPy array, for [n >= 0]. *)
Definition getitem {A} (l : list A) (n : nat) : result A :=
  match l !! n with
  | Some x => Ok x
  | None => Err IndexError
  end.

(** ** Numbers *)

(** Conversion of an integer to the nearest binary64 number (ties to even),
    as Python and NumPy convert an [int] or [int64] operand of a float
    operation. *)
Definition float_of_Z (z : Z) : float :=
  SF2Prim (binary_normalize prec emax z 0 false).

Definition int64_min : Z := - 2 ^ 63.
Definition int64_max : Z := 2 ^ 63 - 1.

Definition in_int64 (z : Z) : Prop := int64_min <= z <= int64_max.

(** Two's complement wrap-around of NumPy's [int64] arithmetic. *)
Definition wrap64 (z : Z) : Z := (z + 2 ^ 63) mod 2 ^ 64 - 2 ^ 63.

(** [2 ** k] for [k : np.int64] (line 105): NumPy refuses a negative
    exponent with a ValueError, and the result is an [int64] that wraps
    around ([2 ** 63] is [-2 ** 63], [2 ** k] is [0] from [k = 64] on). *)
Definition pow2_int64 (k : Z) : result Z :=
  if decide (k < 0) then Err ValueError
  else if decide (64 <= k) then Ok 0
  else Ok (wrap64 (2 ^ k)).

(** ** Strings and paths *)

(** [s.replace(old, new)] for a non-empty [old]: every occurrence, from left
    to right, occurrences not overlapping. [skip] counts the characters of a
    replaced occurrence still to be dropped. *)
Fixpoint replace_from (old new : string) (skip : nat) (s : string) : string :=
  match s with
  | EmptyString => EmptyString
  | String c s' =>
      match skip with
      | S k => replace_from old new k s'
      | O =>
          if String.prefix old s
          then new +:+ replace_from old new (Nat.pred (String.length old)) s'
          else String c (replace_from old new O s')
      end
  end.

Definition replace (old new s : string) : string := replace_from old new O s.

Fixpoint ends_with_slash (s : string) : bool :=
  match s with
  | EmptyString => false
  | String c EmptyString => String.eqb (String c EmptyString) "/"
  | String _ s' => ends_with_slash s'
  end.

(** [os.path.join(a, b)] of [posixpath], for two components. *)
Definition os_path_join (a b : string) : string :=
  if String.prefix "/" b then b
  else if bool_decide (a = "") || ends_with_slash a then a +:+ b
  else a +:+ "/" +:+ b.

(** ** The metadata tree *)

(** An [xml.etree.ElementTree] element: its tag, its text ([None] for an
    element without text) and its children in document order. *)
#[warnings="-register-all"]
Inductive Element : Type :=
  | Elem (tag : string) (text : option string) (children : list Element).

Definition tag (e : Element) : string := let (t, _, _) := e in t.
Definition text (e : Element) : option string := let (_, x, _) := e in x.
Definition children (e : Element) : list Element := let (_, _, c) := e in c.

Module ET.

(** [e.find(key)] for a plain tag name: the first child with that tag. *)
Definition find (key : string) (e : Element) : option Element :=
  List.find (fun c => String.eqb (tag c) key) (children e).

(** The element and all its descendants, in document order. *)
Fixpoint descendants (e : Element) : list Element :=
  match e with
  | Elem _ _ cs => e :: flat_map descendants cs
  end.

(** [e.iter(key)]: the elements of the subtree with that tag, in document
    order, [e] included. *)
Definition iter (key : string) (e : Element) : list Element :=
  List.filter (fun x => String.eqb (tag x) key) (descendants e).

End ET.

(** Lines 61-63: the text of the child [key] of a signal node, [None] when the
    child is missing (and also when it has no text). *)
Definition field (key : string) (signal : Element) : option string :=
  match ET.find key signal with
  | Some val => text val
  | None => None
  end.

(** ** Headers *)

(** The dictionary [headers]. Its key set is fixed at line 50, so it is a
    record; the three parameters are the element types of the integer
    columns, of the float columns and of [power_supply]: text or [None] while
    the loop of line 52 fills the lists ([power_supply] holds the integer 5),
    [int64], [float64] and [float64] after the coercion of lines 75-79. *)
Record headers (I F P : Type) : Type := Headers {
  track_index : list I;
  description : list (option string);
  unity_of_measurement : list (option string);
  power_supply : list P;
  fsample : list F;
  ad_bits : list I;
  signal_gain : list F;
  low_pass_filter : list F;
  high_pass_filter : list F
}.
Arguments Headers {I F P}.
Arguments track_index {I F P}.
Arguments description {I F P}.
Arguments unity_of_measurement {I F P}.
Arguments power_supply {I F P}.
Arguments fsample {I F P}.
Arguments ad_bits {I F P}.
Arguments signal_gain {I F P}.
Arguments low_pass_filter {I F P}.
Arguments high_pass_filter {I F P}.

Abbreviation raw_headers := (headers (option string) (option string) Z).
Abbreviation np_headers := (headers Z float float).

Definition empty_headers : raw_headers := Headers [] [] [] [] [] [] [] [] [].

(** Lines 59-64: one entry is appended to every list. *)
Definition append_signal (h : raw_headers) (signal : Element) : raw_headers :=
  {| track_index := track_index h ++ [field "track_index" signal];
     description := description h ++ [field "description" signal];
     unity_of_measurement :=
       unity_of_measurement h ++ [field "unity_of_measurement" signal];
     power_supply := power_supply h ++ [5];
     fsample := fsample h ++ [field "fsample" signal];
     ad_bits := ad_bits h ++ [field "ad_bits" signal];
     signal_gain := signal_gain h ++ [field "signal_gain" signal];
     low_pass_filter := low_pass_filter h ++ [field "low_pass_filter" signal];
     high_pass_filter :=
       high_pass_filter h ++ [field "high_pass_filter" signal] |}.

(** The three names bound at lines 68-70, by the first selected signal. *)
Record common : Type := Common {
  signal_path : option Element;
  track_totalnumber : option Element;
  timestep : float
}.

(** The state of the loop of line 52; [shared = None] while [signal_path],
    [track_totalnumber] and [timestep] are unbound. *)
Record parse_state : Type := ParseState {
  n_signals : nat;
  hdrs : raw_headers;
  shared : option common
}.

Definition initial_state : parse_state := ParseState O empty_headers None.

Definition is_selected (signal : Element) : bool :=
  match ET.find "plugin" signal with
  | Some plugin => bool_decide (text plugin = Some "LoaderOTComm")
  | None => false
  end.

(** ** Files *)

Abbreviation matrix := (list (list float)).

(** What [tarfile.extractall] puts into the temporary directory: the parsed
    [form_dock00.xml] and the other members, by name. Opening the container
    and parsing the XML text are the work of [tarfile] and [ElementTree]. A
    name is the path of the extracted file below the temporary directory in
    the spelling line 85 uses for it; what a member with an absolute name or
    a name through [..] leaves outside the temporary directory is not
    recorded. *)
Record archive : Type := Archive {
  form_dock00 : Element;
  members : gmap string (list byte)
}.

(** The files of the output directory. A header document is what [yaml.dump]
    receives, a table is what [np.savetxt] receives. *)
Inductive file : Type :=
  | FArchive (a : archive)
  | FYaml (h : np_headers)
  | FCsv (m : matrix)
  | FOther (b : list byte).

Definition os_path_exists (fs : gmap string file) (p : string) : bool :=
  bool_decide (is_Some (fs !! p)).

Definition yaml_path (pathname filename : string) : string :=
  os_path_join pathname (replace ".otb+" ".yaml" filename).

Definition csv_path (pathname filename : string) : string :=
  os_path_join pathname (replace ".otb+" ".csv" filename).

(** [tarfile.open] at line 41. *)
Definition tarfile_open (fs : gmap string file) (p : string) : result archive :=
  match fs !! p with
  | Some (FArchive a) => Ok a
  | Some _ => Err ReadError
  | None => Err FileNotFoundError
  end.

(** ** Decoding the sample file *)

(** One little-endian signed 16-bit sample. *)
Definition int16_le (lo hi : byte) : Z :=
  let u := Z.of_N (Byte.to_N lo) + 256 * Z.of_N (Byte.to_N hi) in
  if decide (u < 32768) then u else u - 65536.

(** [np.frombuffer(data, dtype=np.int16)] (line 87): a buffer whose size is
    not a multiple of the element size is refused. *)
Fixpoint frombuffer_int16 (data : list byte) : result (list Z) :=
  match data with
  | [] => Ok []
  | [_] => Err ValueError
  | lo :: hi :: rest => xs ← frombuffer_int16 rest; Ok (int16_le lo hi :: xs)
  end.

(** [nrows] consecutive rows of [ncols] elements. *)
Fixpoint rows_of {A} (nrows ncols : nat) (flat : list A) : list (list A) :=
  match nrows with
  | O => []
  | S r => take ncols flat :: rows_of r ncols (drop ncols flat)
  end.

(** [np.reshape(data, (-1, ncols))] (line 91), every refusal a ValueError. A
    negative entry of the shape is an unknown dimension and only one is
    allowed; a zero column count or a size that is not a multiple of the
    column count does not fit; a column count that is no machine integer is
    refused. The result also has to be an array NumPy can hold, and its size
    check counts an empty dimension as one: for an empty array a row of
    [ncols] floats of 8 bytes ([data] is [float64] since line 88) must stay
    below [2 ** 63] bytes; an array that is not empty has its size already. *)
Definition reshape {A} (data : list A) (ncols : Z) : result (list (list A)) :=
  if decide (0 < ncols <= int64_max) then
    if decide (Z.of_nat (length data) mod ncols = 0) then
      if decide (length data = O ∧ 2 ^ 60 <= ncols) then Err ValueError
      else
        Ok (rows_of (length data / Z.to_nat ncols)%nat (Z.to_nat ncols) data)
    else Err ValueError
  else Err ValueError.

(** One entry of an integer index array on an axis of [ncols] elements: a
    negative index counts from the end, an index out of bounds is refused. *)
Definition normalize_index (ncols i : Z) : result nat :=
  if decide (- ncols <= i < ncols) then Ok (Z.to_nat (i mod ncols))
  else Err IndexError.

(** [data[:, index]] (line 92) on a matrix with [ncols] columns. *)
Definition select_columns (data : matrix) (ncols : Z) (index : list Z)
  : result matrix :=
  cols ← mapR (normalize_index ncols) index;
  Ok (map (fun row => map (fun c => nth c row 0%float) cols) data).

(** ** Calibration *)

(** Lines 96-102. *)
Definition unit_factor (unit : option string) : result Z :=
  if decide (unit = Some "mV") then Ok 1000
  else if decide (unit = Some "V") then Ok 1
  else Err UnrecognizedUnit.

(** The right-hand side of line 105 for one sample, the operations in the
    order Python evaluates them: [x * power_supply / pow * factor / gain]. *)
Definition calibrated (x power_supply : float) (pow factor : Z) (gain : float)
  : float :=
  (x * power_supply / float_of_Z pow * float_of_Z factor / gain)%float.

(** The body of the loop of line 94 for channel [n]. *)
Definition calibrate_column (h : np_headers) (data : matrix) (n : nat)
  : result matrix :=
  unit ← getitem (unity_of_measurement h) n;
  factor ← unit_factor unit;
  ps ← getitem (power_supply h) n;
  bits ← getitem (ad_bits h) n;
  pow ← pow2_int64 bits;
  gain ← getitem (signal_gain h) n;
  Ok (map (alter (fun x => calibrated x ps pow factor gain) n) data).

Fixpoint calibrate_columns (h : np_headers) (data : matrix) (ns : list nat)
  : result matrix :=
  match ns with
  | [] => Ok data
  | n :: ns' => data' ← calibrate_column h data n; calibrate_columns h data' ns'
  end.

(** Lines 94-105: [for n in range(n_signals)]. *)
Definition calibrate (h : np_headers) (n_signals : nat) (data : matrix)
  : result matrix :=
  calibrate_columns h data (seq 0 n_signals).

(** Line 108: [np.arange(rows) * timestep]. *)
Definition time_column (rows : nat) (timestep : float) : list float :=
  map (fun i => (float_of_Z (Z.of_nat i) * timestep)%float) (seq 0 rows).

(** Line 109: [np.column_stack([data, time.T])]. *)
Definition column_stack (data : matrix) (time : list float) : matrix :=
  zip_with (fun row t => row ++ [t]) data time.

(** ** The conversion *)

Section Otread.

(** The built-in conversions of a string, [None] when they raise a
    ValueError: [py_float s] is [float(s)] and [py_int s] is [int(s)].
    NumPy converts the text entries of a list with the same functions when
    it builds an array of [dtype=float] or [dtype=int]. *)
Variable py_float : string → option float.
Variable py_int : string → option Z.

(** [float(x)] at line 70, for an entry of [headers["fsample"]]. *)
Definition float_of_entry (x : option string) : result float :=
  match x with
  | None => Err TypeError
  | Some s =>
      match py_float s with
      | Some f => Ok f
      | None => Err ValueError
      end
  end.

(** [1 / f] on Python floats. *)
Definition reciprocal (f : float) : result float :=
  if PrimFloat.eqb f 0 then Err ZeroDivisionError else Ok (1 / f)%float.

(** Lines 56-70: the body of the loop for one signal node. *)
Definition read_signal (st : parse_state) (signal : Element)
  : result parse_state :=
  match ET.find "plugin" signal with
  | None => Err AttributeError
  | Some plugin =>
      if decide (text plugin = Some "LoaderOTComm") then
        let n := S (n_signals st) in
        let h := append_signal (hdrs st) signal in
        if decide (n = 1%nat) then
          x ← getitem (fsample h) 0;
          f ← float_of_entry x;
          ts ← reciprocal f;
          Ok (ParseState n h
                (Some (Common (ET.find "signal_path" signal)
                              (ET.find "track_totalnumber" signal) ts)))
        else Ok (ParseState n h (shared st))
      else Ok st
  end.

Fixpoint read_signals_from (st : parse_state) (signals : list Element)
  : result parse_state :=
  match signals with
  | [] => Ok st
  | signal :: rest => st' ← read_signal st signal; read_signals_from st' rest
  end.

(** Lines 49-70. *)
Definition read_headers (root : Element) : result parse_state :=
  read_signals_from initial_state (ET.iter "signal" root).

(** One entry of [np.array(l, dtype=int)]: [None] is no number, text is
    read by [int] and has to fit an [int64]. *)
Definition np_int (x : option string) : result Z :=
  match x with
  | None => Err TypeError
  | Some s =>
      match py_int s with
      | Some z => if decide (in_int64 z) then Ok z else Err OverflowError
      | None => Err ValueError
      end
  end.

(** One entry of [np.array(l, dtype=float)]: NumPy stores [None] as NaN,
    text is read by [float]. *)
Definition np_float (x : option string) : result float :=
  match x with
  | None => Ok nan
  | Some s =>
      match py_float s with
      | Some f => Ok f
      | None => Err ValueError
      end
  end.

(** Lines 75-79, the arrays built in the order of [heads]. *)
Definition coerce (h : raw_headers) : result np_headers :=
  ti ← mapR np_int (track_index h);
  let ps := map float_of_Z (power_supply h) in
  fsm ← mapR np_float (fsample h);
  ab ← mapR np_int (ad_bits h);
  sg ← mapR np_float (signal_gain h);
  lp ← mapR np_float (low_pass_filter h);
  hp ← mapR np_float (high_pass_filter h);
  Ok {| track_index := ti;
        description := description h;
        unity_of_measurement := unity_of_measurement h;
        power_supply := ps;
        fsample := fsm;
        ad_bits := ab;
        signal_gain := sg;
        low_pass_filter := lp;
        high_pass_filter := hp |}.

(** Line 82: [int(track_totalnumber.text)]. *)
Definition int_of_text (x : option string) : result Z :=
  match x with
  | None => Err TypeError
  | Some s =>
      match py_int s with
      | Some z => Ok z
      | None => Err ValueError
      end
  end.

(** Line 85: the sample file is opened by its name in the extracted
    archive, that is the member recorded under the text of [signal_path] as
    it is spelled. *)
Definition open_member (m : gmap string (list byte)) (path : option string)
  : result (list byte) :=
  match path with
  | None => Err TypeError
  | Some p =>
      match m !! p with
      | Some data => Ok data
      | None => Err FileNotFoundError
      end
  end.

(** Lines 86-92 on the bytes of the sample file. *)
Definition decode (data : list byte) (ncols : Z) (index : list Z)
  : result matrix :=
  samples ← frombuffer_int16 data;
  m ← reshape (map float_of_Z samples) ncols;
  select_columns m ncols index.

(** Lines 81-92. *)
Definition read_signals (m : gmap string (list byte))
    (signal_path track_totalnumber : Element) (index : list Z)
  : result matrix :=
  ncols ← int_of_text (text track_totalnumber);
  data ← open_member m (text signal_path);
  decode data ncols index.

(** Lines 41-113: what is computed from the extracted archive. [Ok None]
    is the fall-through of the test of line 73: nothing is decoded and
    nothing is to be written. *)
Definition convert (a : archive) : result (option (np_headers * matrix)) :=
  st ← read_headers (form_dock00 a);
  match shared st with
  | None => Err UnboundLocalError
  | Some c =>
      match signal_path c, track_totalnumber c with
      | Some sp, Some tn =>
          h ← coerce (hdrs st);
          data ← read_signals (members a) sp tn (track_index h);
          data ← calibrate h (n_signals st) data;
          let time := time_column (length data) (timestep c) in
          Ok (Some (h, column_stack data time))
      | _, _ => Ok None
      end
  end.

(** [otread(pathname, filename)] on the files [fs]: the outcome of the call
    and the files it leaves. [fs] holds the files that lines 31-33 look for,
    line 41 opens and lines 115-119 write; the temporary directory of line 37
    is apart from them and gone when the call ends. *)
Definition otread (pathname filename : string) (fs : gmap string file)
  : result () * gmap string file :=
  let p1 := yaml_path pathname filename in
  let p2 := csv_path pathname filename in
  if os_path_exists fs p1 || os_path_exists fs p2
  then (Err AlreadyProcessed, fs)
  else
    match a ← tarfile_open fs (os_path_join pathname filename); convert a with
    | Err e => (Err e, fs)
    | Ok None => (Ok (), fs)
    | Ok (Some (h, data)) =>
        (Ok (), <[p2 := FCsv data]> (<[p1 := FYaml h]> fs))
    end.

End Otread.

(** ** Plain decimal numerals *)

(** [int] and [float] on the numerals [[+-]?[0-9]+], on which the examples
    run: Python reads such a numeral as the integer it writes and [float]
    gives the nearest binary64 number. Any other text is rejected here. *)
Module Numeral.

Definition digit (c : ascii) : option Z :=
  let n := Z.of_nat (nat_of_ascii c) in
  if decide (48 <= n <= 57) then Some (n - 48) else None.

Fixpoint digits (acc : Z) (s : string) : option Z :=
  match s with
  | EmptyString => Some acc
  | String c s' => d ← digit c; digits (10 * acc + d) s'
  end.

(** The sign and the magnitude of a numeral. *)
Definition signed (s : string) : option (bool * Z) :=
  match s with
  | EmptyString => None
  | String c s' =>
      if String.eqb (String c EmptyString) "-" then
        if String.eqb s' "" then None else m ← digits 0 s'; Some (true, m)
      else if String.eqb (String c EmptyString) "+" then
        if String.eqb s' "" then None else m ← digits 0 s'; Some (false, m)
      else m ← digits 0 s; Some (false, m)
  end.

Definition int (s : string) : option Z :=
  match signed s with
  | Some (neg, m) => Some (if neg : bool then - m else m)
  | None => None
  end.

Definition float (s : string) : option PrimFloat.float :=
  match signed s with
  | Some (neg, m) =>
      Some (if neg : bool then (- float_of_Z m)%float else float_of_Z m)
  | None => None
  end.

End Numeral.

(** ** Sample files and example recordings *)

Definition byte_of_Z (z : Z) : byte :=
  default x00 (Byte.of_N (Z.to_N (z mod 256))).

(** The two bytes of a signed 16-bit sample, low byte first. *)
Definition int16_bytes (v : Z) : byte * byte :=
  let u := v mod 65536 in (byte_of_Z (u mod 256), byte_of_Z (u / 256)).

(** A sample file written from known values, as [ndarray.tobytes] gives it
    for an [int16] array. *)
Fixpoint tobytes (vals : list Z) : list byte :=
  match vals with
  | [] => []
  | v :: vals' => (int16_bytes v).1 :: (int16_bytes v).2 :: tobytes vals'
  end.

Definition node (key value : string) : Element := Elem key (Some value) [].

Definition signal_node (fields : list (string * string)) : Element :=
  Elem "signal" None (map (fun kv => node kv.1 kv.2) fields).

Definition without (key : string) (fields : list (string * string))
  : list (string * string) :=
  List.filter (fun kv => negb (String.eqb kv.1 key)) fields.

Definition setting (key value : string) (fields : list (string * string))
  : list (string * string) :=
  map (fun kv => if String.eqb kv.1 key then (key, value) else kv) fields.

(** An acquired channel on track 0 of 3, in volts. *)
Definition emg : list (string * string) :=
  [("plugin", "LoaderOTComm"); ("track_index", "0"); ("description", "EMG");
   ("unity_of_measurement", "V"); ("fsample", "10"); ("ad_bits", "12");
   ("signal_gain", "2"); ("low_pass_filter", "500");
   ("high_pass_filter", "10"); ("signal_path", "rec.sig");
   ("track_totalnumber", "3")].

(** A channel computed by the acquisition software, on track 1. *)
Definition rms : list (string * string) :=
  setting "plugin" "LoaderProcessing" (setting "track_index" "1" emg).

(** An acquired channel on track 2, in millivolts. *)
Definition aux : list (string * string) :=
  setting "track_index" "2" (setting "unity_of_measurement" "mV"
    (setting "ad_bits" "16" (setting "signal_gain" "1" emg))).

(** Four rows of three interleaved samples. *)
Definition ramp : list Z := [2048; 1; 2; 3; 4; 5; 6; 7; 8; -9; 10; -11].

Definition recording (signals : list (list (string * string))) (data : list Z)
  : archive :=
  Archive (Elem "OTB" None (map signal_node signals))
          {[ "rec.sig" := tobytes data ]}.

Definition disk (a : archive) : gmap string file :=
  {[ "/data/rec.otb+" := FArchive a ]}.

Definition run (a : archive) : result () * gmap string file :=
  otread Numeral.float Numeral.int "/data" "rec.otb+" (disk a).

(** The signal nodes the loop of line 52 selects, in document order. *)
Definition selected (root : Element) : list Element :=
  List.filter is_selected (ET.iter "signal" root).

(** Every list of the headers has [n] entries. *)
Definition aligned {I F P} (n : nat) (h : headers I F P) : Prop :=
  length (track_index h) = n ∧ length (description h) = n ∧
  length (unity_of_measurement h) = n ∧ length (power_supply h) = n ∧
  length (fsample h) = n ∧ length (ad_bits h) = n ∧
  length (signal_gain h) = n ∧ length (low_pass_filter h) = n ∧
  length (high_pass_filter h) = n.

(** An entry that [np.array(_, dtype=int)] refuses: [None], text that [int]
    rejects, or an integer that does not fit an [int64]. *)
Definition not_an_int64 (py_int : string → option Z) (x : option string)
  : Prop :=
  match x with
  | None => True
  | Some t =>
      match py_int t with
      | None => True
      | Some z => ¬ in_int64 z
      end
  end.

(** Text that [float] rejects. *)
Definition not_a_float (py_float : string → option float) (x : option string)
  : Prop :=
  ∃ t, x = Some t ∧ py_float t = None.

(** The four numbers line 105 takes from the headers for channel [n]: the
    excitation, [2 ** ad_bits], the unit factor and the gain. *)
Definition channel_params (h : np_headers) (n : nat)
  : result (float * Z * Z * float) :=
  unit ← getitem (unity_of_measurement h) n;
  factor ← unit_factor unit;
  ps ← getitem (power_supply h) n;
  bits ← getitem (ad_bits h) n;
  pow ← pow2_int64 bits;
  gain ← getitem (signal_gain h) n;
  Ok (ps, pow, factor, gain).

Definition calibrated_with (p : float * Z * Z * float) (x : float) : float :=
  let '(ps, pow, factor, gain) := p in calibrated x ps pow factor gain.

(** The last column of a table. *)
Definition last_column (m : matrix) : list float := omap last m.

(** A node without its children tagged [key]. *)
Definition without_child (key : string) (e : Element) : Element :=
  Elem (tag e) (text e)
       (List.filter (fun c => negb (String.eqb (tag c) key)) (children e)).

(** Two signal nodes that are the same but for their [fsample] children. *)
Definition differ_only_in_fsample (x y : Element) : Prop :=
  without_child "fsample" x = without_child "fsample" y.

(** The test of line 33: one of the two outputs is already there. *)
Definition outputs_exist (pathname filename : string) (fs : gmap string file)
  : Prop :=
  is_Some (fs !! yaml_path pathname filename) ∨
  is_Some (fs !! csv_path pathname filename).

(** ** The batch driver *)

Fixpoint all_slashes (s : string) : bool :=
  match s with
  | EmptyString => true
  | String c s' => Ascii.eqb c "/" && all_slashes s'
  end.

(** [s.rstrip("/")]. *)
Fixpoint rstrip_slash (s : string) : string :=
  match s with
  | EmptyString => EmptyString
  | String c s' =>
      let r := rstrip_slash s' in
      if String.eqb r "" && Ascii.eqb c "/" then EmptyString else String c r
  end.

(** [(p[:i], p[i:])] for [i = p.rfind("/") + 1]. *)
Fixpoint cut_last_slash (p : string) : string * string :=
  match p with
  | EmptyString => (EmptyString, EmptyString)
  | String c p' =>
      let (head, tail) := cut_last_slash p' in
      if String.eqb head "" then
        if Ascii.eqb c "/" then (String c EmptyString, tail)
        else (EmptyString, String c tail)
      else (String c head, tail)
  end.

(** [os.path.split(p)] of [posixpath] (line 129): the trailing slashes of the
    head are dropped unless the head is made of slashes only. *)
Definition os_path_split (p : string) : string * string :=
  let (head, tail) := cut_last_slash p in
  if negb (String.eqb head "") && negb (all_slashes head)
  then (rstrip_slash head, tail)
  else (head, tail).

(** Lines 127-133 on the paths the glob of line 127 yields, in the order it
    yields them: the names warned about, in order, and the files left. The
    bare [except] catches every exception of [otread]. *)
Fixpoint main (py_float : string → option float) (py_int : string → option Z)
    (paths : list string) (fs : gmap string file)
  : list string * gmap string file :=
  match paths with
  | [] => ([], fs)
  | path :: rest =>
      let (PATHNAME, FILENAME) := os_path_split path in
      match otread py_float py_int PATHNAME FILENAME fs with
      | (Ok _, fs') => main py_float py_int rest fs'
      | (Err _, fs') =>
          let (warned, fs'') := main py_float py_int rest fs' in
          (FILENAME :: warned, fs'')
      end
  end.


Fixpoint has_slash (s : string) : bool :=
  match s with
  | EmptyString => false
  | String c s' => Ascii.eqb c "/" || has_slash s'
  end.

(** * Properties *)

(** ** The result monad *)

Lemma bind_Ok {A B} (m : result A) (f : A → result B) (b : B) :
  m ≫= f = Ok b → ∃ a, m = Ok a ∧ f a = Ok b.
Proof. destruct m as [a|e]; simpl; [eauto | discriminate]. Qed.

Lemma bind_Err {A B} (m : result A) (f : A → result B) :
  is_Err m → is_Err (m ≫= f).
Proof. intros [e ->]. by exists e. Qed.

Ltac inv_bind H :=
  repeat match type of H with
  | _ ≫= _ = Ok _ =>
      let a := fresh "a" in
      let Ha := fresh "Ha" in
      apply bind_Ok in H as (a & Ha & H)
  end.

Lemma mapR_Forall2 {A B} (f : A → result B) l l' :
  mapR f l = Ok l' → Forall2 (fun x y => f x = Ok y) l l'.
Proof.
  revert l'. induction l as [|x l IH]; intros l' H; simpl in H.
  - injection H as <-. constructor.
  - inv_bind H. injection H as <-. constructor; auto.
Qed.

Lemma mapR_length {A B} (f : A → result B) l l' :
  mapR f l = Ok l' → length l' = length l.
Proof. intros H. symmetry. eapply Forall2_length, mapR_Forall2, H. Qed.

Lemma mapR_Err {A B} (f : A → result B) l x :
  x ∈ l → is_Err (f x) → is_Err (mapR f l).
Proof.
  intros Hin Hx. induction Hin as [x l|x z l Hin IH]; simpl.
  - apply bind_Err, Hx.
  - destruct (f z); [simpl | by eexists]. apply bind_Err, IH, Hx.
Qed.

Lemma getitem_Ok {A} (l : list A) n x : getitem l n = Ok x ↔ l !! n = Some x.
Proof.
  unfold getitem. destruct (l !! n); split; intros H; congruence.
Qed.

(** ** The header loop *)

Lemma append_all_fields (sel : list Element) (h : raw_headers) :
  let h' := fold_left append_signal sel h in
  track_index h' = track_index h ++ map (field "track_index") sel ∧
  description h' = description h ++ map (field "description") sel ∧
  unity_of_measurement h' =
    unity_of_measurement h ++ map (field "unity_of_measurement") sel ∧
  power_supply h' = power_supply h ++ map (fun _ => 5) sel ∧
  fsample h' = fsample h ++ map (field "fsample") sel ∧
  ad_bits h' = ad_bits h ++ map (field "ad_bits") sel ∧
  signal_gain h' = signal_gain h ++ map (field "signal_gain") sel ∧
  low_pass_filter h' =
    low_pass_filter h ++ map (field "low_pass_filter") sel ∧
  high_pass_filter h' =
    high_pass_filter h ++ map (field "high_pass_filter") sel.
Proof.
  revert h. induction sel as [|s sel IH]; intros h; simpl.
  - by rewrite !app_nil_r.
  - specialize (IH (append_signal h s)). simpl in IH.
    destruct IH as (-> & -> & -> & -> & -> & -> & -> & -> & ->).
    by rewrite <- !app_assoc.
Qed.

Section HeaderLoop.

Variable py_float : string → option float.

Lemma read_signal_skip st s :
  is_selected s = false → ∀ st', read_signal py_float st s = Ok st' → st' = st.
Proof.
  unfold is_selected, read_signal. intros Hs st'.
  destruct (ET.find "plugin" s) as [p|]; [|discriminate].
  apply bool_decide_eq_false in Hs.
  destruct (decide _); [done|]. congruence.
Qed.

(** After the first selected signal the shared names stay as they are. *)
Lemma read_signal_later st s :
  is_selected s = true → n_signals st ≠ O →
  read_signal py_float st s =
    Ok (ParseState (S (n_signals st)) (append_signal (hdrs st) s) (shared st)).
Proof.
  unfold is_selected, read_signal. intros Hs Hn.
  destruct (ET.find "plugin" s) as [p|]; [|discriminate].
  apply bool_decide_eq_true in Hs.
  destruct (decide _); [|done].
  destruct (decide _); [lia|done].
Qed.

Lemma read_signals_later signals : ∀ st st',
  n_signals st ≠ O →
  read_signals_from py_float st signals = Ok st' →
  let sel := List.filter is_selected signals in
  n_signals st' = (n_signals st + length sel)%nat ∧
  hdrs st' = fold_left append_signal sel (hdrs st) ∧
  shared st' = shared st.
Proof.
  induction signals as [|s signals IH]; intros st st' Hn H; simpl in *.
  - injection H as <-. split; [lia|done].
  - inv_bind H. destruct (is_selected s) eqn:Hs.
    + rewrite read_signal_later in Ha by done. injection Ha as <-.
      apply IH in H as (-> & -> & ->); [|simpl; lia].
      simpl. split; [lia|done].
    + apply read_signal_skip in Ha as ->; [|done]. by apply IH.
Qed.

(** The first selected signal binds the shared names. *)
Lemma read_signal_first s st' :
  is_selected s = true →
  read_signal py_float initial_state s = Ok st' →
  ∃ f ts, float_of_entry py_float (field "fsample" s) = Ok f ∧
    reciprocal f = Ok ts ∧
    st' = ParseState 1 (append_signal empty_headers s)
            (Some (Common (ET.find "signal_path" s)
                          (ET.find "track_totalnumber" s) ts)).
Proof.
  unfold is_selected, read_signal. intros Hs H.
  destruct (ET.find "plugin" s) as [p|]; [|discriminate].
  apply bool_decide_eq_true in Hs.
  destruct (decide _); [|done]. simpl in H.
  inv_bind H. injection H as <-. eauto.
Qed.

(** What the loop leaves when it ends without an exception. *)
Lemma read_headers_Ok root st :
  read_headers py_float root = Ok st →
  n_signals st = length (selected root) ∧
  hdrs st = fold_left append_signal (selected root) empty_headers ∧
  match selected root with
  | [] => shared st = None
  | s :: _ =>
      ∃ f ts, float_of_entry py_float (field "fsample" s) = Ok f ∧
        reciprocal f = Ok ts ∧
        shared st = Some (Common (ET.find "signal_path" s)
                                 (ET.find "track_totalnumber" s) ts)
  end.
Proof.
  unfold read_headers, selected.
  induction (ET.iter "signal" root) as [|s signals IH]; simpl; intros H.
  - by injection H as <-.
  - inv_bind H. destruct (is_selected s) eqn:Hs.
    + apply read_signal_first in Ha as (f & ts & Hf & Hts & ->); [|done].
      apply read_signals_later in H as (-> & -> & ->); [|done].
      simpl. split; [done|]. split; [done|]. eauto.
    + apply read_signal_skip in Ha as ->; auto.
Qed.

Lemma read_headers_aligned root st :
  read_headers py_float root = Ok st → aligned (n_signals st) (hdrs st).
Proof.
  intros H. apply read_headers_Ok in H as (-> & -> & _).
  pose proof (append_all_fields (selected root) empty_headers) as F.
  simpl in F. unfold aligned.
  destruct F as (-> & -> & -> & -> & -> & -> & -> & -> & ->).
  by rewrite !length_map.
Qed.

End HeaderLoop.

(** ** Coercion, conversion and the files *)

Section Pipeline.

Variable py_float : string → option float.
Variable py_int : string → option Z.

Lemma coerce_Ok h h' :
  coerce py_float py_int h = Ok h' →
  mapR (np_int py_int) (track_index h) = Ok (track_index h') ∧
  description h' = description h ∧
  unity_of_measurement h' = unity_of_measurement h ∧
  power_supply h' = map float_of_Z (power_supply h) ∧
  mapR (np_float py_float) (fsample h) = Ok (fsample h') ∧
  mapR (np_int py_int) (ad_bits h) = Ok (ad_bits h') ∧
  mapR (np_float py_float) (signal_gain h) = Ok (signal_gain h') ∧
  mapR (np_float py_float) (low_pass_filter h) = Ok (low_pass_filter h') ∧
  mapR (np_float py_float) (high_pass_filter h) = Ok (high_pass_filter h').
Proof.
  unfold coerce. intros H. inv_bind H. injection H as <-. simpl.
  repeat split; assumption.
Qed.

Lemma coerce_aligned n h h' :
  coerce py_float py_int h = Ok h' → aligned n h → aligned n h'.
Proof.
  intros H (A1 & A2 & A3 & A4 & A5 & A6 & A7 & A8 & A9).
  apply coerce_Ok in H as (H1 & H2 & H3 & H4 & H5 & H6 & H7 & H8 & H9).
  apply mapR_length in H1, H5, H6, H7, H8, H9.
  unfold aligned. rewrite H2, H3, H4, length_map.
  repeat split; congruence.
Qed.

(** The stages of a conversion that reaches the output. *)
Lemma convert_Some a h m :
  convert py_float py_int a = Ok (Some (h, m)) →
  ∃ st c sp tn raw cal,
    read_headers py_float (form_dock00 a) = Ok st ∧
    shared st = Some c ∧
    signal_path c = Some sp ∧ track_totalnumber c = Some tn ∧
    coerce py_float py_int (hdrs st) = Ok h ∧
    read_signals py_int (members a) sp tn (track_index h) = Ok raw ∧
    calibrate h (n_signals st) raw = Ok cal ∧
    m = column_stack cal (time_column (length cal) (timestep c)).
Proof.
  unfold convert. intros H. apply bind_Ok in H as (st & Hst & H).
  destruct (shared st) as [c|] eqn:Hc; [|discriminate].
  destruct (signal_path c) as [sp|] eqn:Hsp;
    [destruct (track_totalnumber c) as [tn|] eqn:Htn|]; try discriminate.
  apply bind_Ok in H as (h0 & Hh & H).
  apply bind_Ok in H as (raw & Hraw & H).
  apply bind_Ok in H as (cal & Hcal & H).
  injection H as <- <-.
  exists st, c, sp, tn, raw, cal. repeat split; assumption.
Qed.

Lemma guard_true pathname filename fs :
  outputs_exist pathname filename fs ↔
  os_path_exists fs (yaml_path pathname filename)
    || os_path_exists fs (csv_path pathname filename) = true.
Proof.
  unfold outputs_exist, os_path_exists.
  rewrite orb_true_iff, !bool_decide_eq_true. tauto.
Qed.

Lemma otread_guarded pathname filename fs :
  outputs_exist pathname filename fs →
  otread py_float py_int pathname filename fs = (Err AlreadyProcessed, fs).
Proof.
  intros H. apply guard_true in H. unfold otread. by rewrite H.
Qed.

Lemma otread_unguarded pathname filename fs :
  ¬ outputs_exist pathname filename fs →
  otread py_float py_int pathname filename fs =
    match a ← tarfile_open fs (os_path_join pathname filename);
          convert py_float py_int a with
    | Err e => (Err e, fs)
    | Ok None => (Ok (), fs)
    | Ok (Some (h, data)) =>
        (Ok (), <[csv_path pathname filename := FCsv data]>
                  (<[yaml_path pathname filename := FYaml h]> fs))
    end.
Proof.
  intros H. rewrite guard_true in H. apply not_true_is_false in H.
  unfold otread. by rewrite H.
Qed.

(** A call that raises leaves the files as they were. *)
Lemma otread_Err_unchanged pathname filename fs e :
  (otread py_float py_int pathname filename fs).1 = Err e →
  (otread py_float py_int pathname filename fs).2 = fs.
Proof.
  destruct (decide (outputs_exist pathname filename fs)) as [G|G].
  - by rewrite otread_guarded.
  - rewrite otread_unguarded by done.
    destruct (_ ≫= _) as [[[h m]|]|]; simpl; [discriminate|done..].
Qed.

(** An exception in the conversion is the outcome of the call, or the guard
    raised first. *)
Lemma otread_convert_Err pathname filename fs a :
  tarfile_open fs (os_path_join pathname filename) = Ok a →
  is_Err (convert py_float py_int a) →
  ∃ e, otread py_float py_int pathname filename fs = (Err e, fs).
Proof.
  intros Ha [e He].
  destruct (decide (outputs_exist pathname filename fs)) as [G|G].
  - rewrite otread_guarded by done. eauto.
  - rewrite otread_unguarded, Ha by done. simpl. rewrite He. eauto.
Qed.

End Pipeline.

(** * The claims and their lemmas *)

(** ** Alignment of the header lists *)

(** C10: when the header loop ends, every list of [headers] has exactly
    [n_signals] entries, [n_signals] being the number of selected signal
    nodes, and so has every list of the header document of a conversion that
    reaches the output: each selected channel contributes one entry to every
    field. *)
Theorem header_lists_aligned py_float py_int (a : archive) st :
  read_headers py_float (form_dock00 a) = Ok st →
  n_signals st = length (selected (form_dock00 a)) ∧
  aligned (n_signals st) (hdrs st) ∧
  ∀ h m, convert py_float py_int a = Ok (Some (h, m)) →
         aligned (n_signals st) h.
Proof.
  intros Hst. split; [by apply read_headers_Ok in Hst as (-> & _)|].
  split; [by eapply read_headers_aligned|].
  intros h m H. apply convert_Some in H as (st' & c & sp & tn & raw & cal & H).
  destruct H as (Hst' & _ & _ & _ & Hh & _).
  rewrite Hst in Hst'. injection Hst' as <-.
  eapply coerce_aligned; [exact Hh|]. by eapply read_headers_aligned.
Qed.

Lemma header_lists_aligned_witness :
  let a := recording [emg; rms; aux] ramp in
  ∃ st, read_headers Numeral.float (form_dock00 a) = Ok st ∧
    (n_signals st = length (selected (form_dock00 a)) ∧
     aligned (n_signals st) (hdrs st) ∧
     ∀ h m, convert Numeral.float Numeral.int a = Ok (Some (h, m)) →
            aligned (n_signals st) h).
Proof.
  intros a. eexists. split; [vm_compute; reflexivity|].
  apply (header_lists_aligned Numeral.float Numeral.int a).
  vm_compute; reflexivity.
Defined.

(** ** The guard against overwriting *)

(** C7: when the header document or the table derived from the archive name
    already exists, [otread] raises the exception of line 34 and leaves the
    files as they are; hence after a conversion that wrote its outputs, a
    second call on the same archive raises that exception and the files of
    the first call stay as written. *)
Theorem already_processed py_float py_int pathname filename fs :
  (outputs_exist pathname filename fs →
   otread py_float py_int pathname filename fs = (Err AlreadyProcessed, fs)) ∧
  (∀ a h m,
     ¬ outputs_exist pathname filename fs →
     tarfile_open fs (os_path_join pathname filename) = Ok a →
     convert py_float py_int a = Ok (Some (h, m)) →
     ∃ fs1, otread py_float py_int pathname filename fs = (Ok (), fs1) ∧
       fs1 !! csv_path pathname filename = Some (FCsv m) ∧
       otread py_float py_int pathname filename fs1 =
         (Err AlreadyProcessed, fs1)).
Proof.
  split; [apply otread_guarded|].
  intros a h m G Ha Hc. eexists.
  rewrite otread_unguarded, Ha by done. simpl. rewrite Hc.
  split; [reflexivity|]. split; [apply lookup_insert_eq|].
  apply otread_guarded. right. rewrite lookup_insert_eq. by eexists.
Qed.

Lemma already_processed_witness :
  let a := recording [emg; rms; aux] ramp in
  let fs := <["/data/rec.csv" := FOther []]> (disk a) in
  otread Numeral.float Numeral.int "/data" "rec.otb+" fs
    = (Err AlreadyProcessed, fs) ∧
  ∃ fs1, run a = (Ok (), fs1) ∧
    is_Some (fs1 !! "/data/rec.csv") ∧
    otread Numeral.float Numeral.int "/data" "rec.otb+" fs1
      = (Err AlreadyProcessed, fs1).
Proof.
  intros a fs. split.
  - apply (proj1 (already_processed Numeral.float Numeral.int
                    "/data" "rec.otb+" fs)).
    right. vm_compute. by eexists.
  - edestruct (proj2 (already_processed Numeral.float Numeral.int
                        "/data" "rec.otb+" (disk a)) a)
      as (fs1 & H1 & H2 & H3).
    + intros [[x H]|[x H]]; vm_compute in H; discriminate H.
    + vm_compute; reflexivity.
    + vm_compute; reflexivity.
    + exists fs1. split; [exact H1|]. split; [|exact H3].
      change (csv_path "/data" "rec.otb+") with "/data/rec.csv" in H2.
      rewrite H2. by eexists.
Defined.

(** ** Archives without channels or without the shared fields *)

(** C1, as the code has it: when no signal node of the acquisition plugin is
    selected, [otread] raises an exception and writes nothing. When a node is
    selected but the first selected one lacks [signal_path] or
    [track_totalnumber], nothing is written either, but nothing is signalled
    for it: once the header loop has ended and no output exists, the test of
    line 73 is false and the call returns normally. *)
Theorem malformed_archive py_float py_int pathname filename fs a :
  tarfile_open fs (os_path_join pathname filename) = Ok a →
  (selected (form_dock00 a) = [] →
   ∃ e, otread py_float py_int pathname filename fs = (Err e, fs)) ∧
  (∀ s rest,
     selected (form_dock00 a) = s :: rest →
     ET.find "signal_path" s = None ∨ ET.find "track_totalnumber" s = None →
     (otread py_float py_int pathname filename fs).2 = fs ∧
     (¬ outputs_exist pathname filename fs →
      ∀ st, read_headers py_float (form_dock00 a) = Ok st →
            otread py_float py_int pathname filename fs = (Ok (), fs))).
Proof.
  intros Ha. split.
  - intros Hsel. eapply otread_convert_Err; [exact Ha|].
    unfold convert.
    destruct (read_headers py_float (form_dock00 a)) as [st|e] eqn:Hst;
      [|by exists e].
    apply read_headers_Ok in Hst as (_ & _ & Hsh). rewrite Hsel in Hsh.
    simpl. rewrite Hsh. by eexists.
  - intros s rest Hsel Hnone.
    assert (∀ st, read_headers py_float (form_dock00 a) = Ok st →
                  convert py_float py_int a = Ok None) as Hconv.
    { intros st Hst. unfold convert. rewrite Hst. simpl.
      apply read_headers_Ok in Hst as (_ & _ & Hsh). rewrite Hsel in Hsh.
      destruct Hsh as (f & ts & _ & _ & ->). simpl.
      destruct Hnone as [-> | ->]; [done|].
      by destruct (ET.find "signal_path" s). }
    split.
    + destruct (decide (outputs_exist pathname filename fs)) as [G|G];
        [by rewrite otread_guarded|].
      rewrite otread_unguarded, Ha by done. simpl.
      destruct (read_headers py_float (form_dock00 a)) as [st|e] eqn:Hst.
      * by rewrite (Hconv st).
      * unfold convert. by rewrite Hst.
    + intros G st Hst. rewrite otread_unguarded, Ha by done. simpl.
      by rewrite (Hconv st).
Qed.

(** C1 fails where [signal_path] is absent: the call on a recording whose
    only selected channel has no [signal_path] raises nothing. *)
Lemma malformed_archive_silent :
  let s := signal_node (without "signal_path" emg) in
  let a := recording [without "signal_path" emg] ramp in
  selected (form_dock00 a) = [s] ∧ ET.find "signal_path" s = None ∧
  run a = (Ok (), disk a).
Proof. vm_compute. done. Qed.

Lemma malformed_archive_witness :
  let a0 := recording [rms] ramp in
  let a := recording [rms; without "track_totalnumber" emg] ramp in
  (∃ e, run a0 = (Err e, disk a0)) ∧ (run a).2 = disk a ∧ run a = (Ok (), disk a).
Proof.
  intros a0 a. split.
  - apply (proj1 (malformed_archive Numeral.float Numeral.int
                    "/data" "rec.otb+" (disk a0) a0 eq_refl)).
    vm_compute; reflexivity.
  - destruct (proj2 (malformed_archive Numeral.float Numeral.int
                       "/data" "rec.otb+" (disk a) a eq_refl)
                (signal_node (without "track_totalnumber" emg)) [])
      as [H1 H2].
    + vm_compute; reflexivity.
    + right. vm_compute; reflexivity.
    + split; [exact H1|]. eapply H2.
      * intros [[x H]|[x H]]; vm_compute in H; discriminate H.
      * vm_compute; reflexivity.
Defined.

(** ** Coercion of the numeric fields *)

Section Coercion.

Variable py_float : string → option float.
Variable py_int : string → option Z.

Lemma np_int_refuses x : not_an_int64 py_int x → is_Err (np_int py_int x).
Proof.
  unfold not_an_int64, np_int. destruct x as [t|]; [|by eexists].
  destruct (py_int t) as [z|]; [|by eexists].
  intros H. destruct (decide _); [done|by eexists].
Qed.

Lemma np_float_refuses x :
  not_a_float py_float x → is_Err (np_float py_float x).
Proof. intros (t & -> & H). simpl. rewrite H. by eexists. Qed.

Lemma bind_Err_later {A B} (m : result A) (f : A → result B) :
  (∀ a, m = Ok a → is_Err (f a)) → is_Err (m ≫= f).
Proof. destruct m as [a|e]; simpl; [auto | by eexists]. Qed.

(** A refused entry in one of the six numeric lists makes the coercion
    raise. *)
Lemma coerce_refuses (h : raw_headers) :
  (∃ x, (x ∈ track_index h ∨ x ∈ ad_bits h) ∧ not_an_int64 py_int x) ∨
  (∃ x, (x ∈ fsample h ∨ x ∈ signal_gain h ∨ x ∈ low_pass_filter h ∨
         x ∈ high_pass_filter h) ∧ not_a_float py_float x) →
  is_Err (coerce py_float py_int h).
Proof.
  intros H. unfold coerce.
  assert (∀ l x, x ∈ l → not_an_int64 py_int x →
                 is_Err (mapR (np_int py_int) l)) as HI
    by (intros l x ? ?; eapply mapR_Err; eauto using np_int_refuses).
  assert (∀ l x, x ∈ l → not_a_float py_float x →
                 is_Err (mapR (np_float py_float) l)) as HF
    by (intros l x ? ?; eapply mapR_Err; eauto using np_float_refuses).
  repeat (apply bind_Err_later; intros ? ?).
  destruct H as [(x & [Hx|Hx] & Hr)|(x & [Hx|[Hx|[Hx|Hx]]] & Hr)];
    [ destruct (HI _ _ Hx Hr) | destruct (HI _ _ Hx Hr)
    | destruct (HF _ _ Hx Hr) | destruct (HF _ _ Hx Hr)
    | destruct (HF _ _ Hx Hr) | destruct (HF _ _ Hx Hr) ]; congruence.
Qed.

(** The lists the loop leaves, in terms of the selected nodes. *)
Lemma read_headers_fields root st :
  read_headers py_float root = Ok st →
  track_index (hdrs st) = map (field "track_index") (selected root) ∧
  unity_of_measurement (hdrs st) =
    map (field "unity_of_measurement") (selected root) ∧
  power_supply (hdrs st) = map (fun _ => 5) (selected root) ∧
  fsample (hdrs st) = map (field "fsample") (selected root) ∧
  ad_bits (hdrs st) = map (field "ad_bits") (selected root) ∧
  signal_gain (hdrs st) = map (field "signal_gain") (selected root) ∧
  low_pass_filter (hdrs st) =
    map (field "low_pass_filter") (selected root) ∧
  high_pass_filter (hdrs st) =
    map (field "high_pass_filter") (selected root).
Proof.
  intros H. apply read_headers_Ok in H as (_ & -> & _).
  pose proof (append_all_fields (selected root) empty_headers) as F.
  simpl in F. tauto.
Qed.

Lemma np_float_lookup l l' n :
  mapR (np_float py_float) l = Ok l' → l !! n = Some None →
  l' !! n = Some nan.
Proof.
  intros H Hn. apply mapR_Forall2 in H.
  destruct (Forall2_lookup_l _ _ _ _ _ H Hn) as (y & Hy & Hf).
  simpl in Hf. congruence.
Qed.

End Coercion.

(** C2, as the code has it: on an archive whose first selected node has
    [signal_path] and [track_totalnumber], [otread] raises, and writes
    nothing, when for a selected channel [track_index] or [ad_bits] is absent,
    is no integer text or does not fit an [int64], when one of [fsample],
    [signal_gain], [low_pass_filter], [high_pass_filter] is text that is no
    number, or when [fsample] is absent on the first selected channel. An
    absent [signal_gain], [low_pass_filter], [high_pass_filter], or
    [fsample] of a later channel, raises nothing: in a conversion that
    reaches the output its entry of the header document is NaN. *)
Theorem coercion_of_fields py_float py_int pathname filename fs a s0 rest sp tn :
  tarfile_open fs (os_path_join pathname filename) = Ok a →
  selected (form_dock00 a) = s0 :: rest →
  ET.find "signal_path" s0 = Some sp →
  ET.find "track_totalnumber" s0 = Some tn →
  (∀ s, s ∈ s0 :: rest →
     not_an_int64 py_int (field "track_index" s) ∨
     not_an_int64 py_int (field "ad_bits" s) ∨
     not_a_float py_float (field "fsample" s) ∨
     not_a_float py_float (field "signal_gain" s) ∨
     not_a_float py_float (field "low_pass_filter" s) ∨
     not_a_float py_float (field "high_pass_filter" s) ∨
     field "fsample" s0 = None →
     ∃ e, otread py_float py_int pathname filename fs = (Err e, fs)) ∧
  (∀ h m n s,
     convert py_float py_int a = Ok (Some (h, m)) →
     (s0 :: rest) !! n = Some s →
     (field "fsample" s = None → fsample h !! n = Some nan) ∧
     (field "signal_gain" s = None → signal_gain h !! n = Some nan) ∧
     (field "low_pass_filter" s = None →
      low_pass_filter h !! n = Some nan) ∧
     (field "high_pass_filter" s = None →
      high_pass_filter h !! n = Some nan)).
Proof.
  intros Ha Hsel Hsp Htn. split.
  - intros s Hs Hbad. eapply otread_convert_Err; [exact Ha|].
    unfold convert. apply bind_Err_later. intros st Hst.
    pose proof (read_headers_fields _ _ _ Hst)
      as (F1 & _ & _ & F4 & F5 & F6 & F7 & F8).
    apply read_headers_Ok in Hst as (_ & _ & Hsh). rewrite Hsel in *.
    destruct Hsh as (f & ts & Hf & _ & ->). simpl. rewrite Hsp, Htn.
    apply bind_Err. apply coerce_refuses.
    rewrite F1, F4, F5, F6, F7, F8.
    assert (∀ key, field key s ∈ map (field key) (s0 :: rest)) as Hin
      by (intros key; apply list_elem_of_fmap; eauto).
    destruct Hbad as [H|[H|[H|[H|[H|[H|H]]]]]]; [left|left|right..];
      try (eexists; split; [|exact H]; auto 6).
    rewrite H in Hf. discriminate Hf.
  - intros h m n s H Hn.
    apply convert_Some in H as (st & c & sp' & tn' & raw & cal & H).
    destruct H as (Hst & _ & _ & _ & Hh & _).
    apply read_headers_fields in Hst as (_ & _ & _ & F4 & _ & F6 & F7 & F8).
    apply coerce_Ok in Hh as (_ & _ & _ & _ & H5 & _ & H7 & H8 & H9).
    rewrite Hsel in *. rewrite F4 in H5. rewrite F6 in H7.
    rewrite F7 in H8. rewrite F8 in H9.
    repeat split; intros Hnone;
      (eapply np_float_lookup; [eassumption|]);
      rewrite list_lookup_fmap, Hn; simpl; by rewrite Hnone.
Qed.

(** C2 fails where a float field is absent: on a recording whose channel has
    no [low_pass_filter], the conversion writes its outputs and the header
    document holds NaN for the field. *)
Lemma coercion_absent_becomes_nan :
  let a := recording [without "low_pass_filter" emg] ramp in
  field "low_pass_filter" (signal_node (without "low_pass_filter" emg)) = None ∧
  (run a).1 = Ok () ∧
  ∃ h, (run a).2 !! "/data/rec.yaml" = Some (FYaml h) ∧
       low_pass_filter h = [nan].
Proof.
  split; [reflexivity|]. split; [vm_compute; reflexivity|].
  eexists. split; vm_compute; reflexivity.
Qed.

Lemma coercion_of_fields_witness :
  let a := recording [emg; without "ad_bits" aux] ramp in
  let b := recording [emg; without "signal_gain" aux] ramp in
  (∃ e, run a = (Err e, disk a)) ∧
  ∃ h m, convert Numeral.float Numeral.int b = Ok (Some (h, m)) ∧
         signal_gain h !! 1%nat = Some nan.
Proof.
  intros a b. split.
  - eapply (proj1 (coercion_of_fields Numeral.float Numeral.int
              "/data" "rec.otb+" (disk a) a (signal_node emg)
              [signal_node (without "ad_bits" aux)]
              (node "signal_path" "rec.sig") (node "track_totalnumber" "3")
              eq_refl eq_refl eq_refl eq_refl)
            (signal_node (without "ad_bits" aux))).
    + apply list_elem_of_lookup. by exists 1%nat.
    + right. left. vm_compute. done.
  - eexists. eexists. split; [vm_compute; reflexivity|].
    eapply (proj2 (coercion_of_fields Numeral.float Numeral.int
              "/data" "rec.otb+" (disk b) b (signal_node emg)
              [signal_node (without "signal_gain" aux)]
              (node "signal_path" "rec.sig") (node "track_totalnumber" "3")
              eq_refl eq_refl eq_refl eq_refl)
            _ _ 1%nat (signal_node (without "signal_gain" aux))).
    + vm_compute; reflexivity.
    + reflexivity.
    + vm_compute; reflexivity.
Defined.

(** ** Decoding *)

Lemma byte_of_Z_to_N z : 0 <= z < 256 → Z.of_N (Byte.to_N (byte_of_Z z)) = z.
Proof.
  intros Hz. unfold byte_of_Z. rewrite Z.mod_small by done.
  destruct (Byte.of_N (Z.to_N z)) as [b|] eqn:Hb; simpl.
  - apply Byte.to_of_N in Hb. rewrite Hb. lia.
  - apply Byte.of_N_None_iff in Hb. lia.
Qed.

Lemma int16_le_bytes v :
  -32768 <= v <= 32767 → int16_le (int16_bytes v).1 (int16_bytes v).2 = v.
Proof.
  intros Hv. unfold int16_le, int16_bytes. simpl.
  assert (0 <= v mod 65536 < 65536) as Hu by (apply Z.mod_pos_bound; lia).
  rewrite !byte_of_Z_to_N
    by (split; [apply Z.mod_pos_bound || apply Z.div_pos
               | apply Z.mod_pos_bound || apply Z.div_lt_upper_bound]; lia).
  replace (v mod 65536 mod 256 + 256 * (v mod 65536 / 256)) with (v mod 65536)
    by (rewrite (Z.div_mod (v mod 65536) 256) at 1; lia).
  destruct (decide (0 <= v)) as [Hp|Hn].
  - rewrite Z.mod_small by lia. destruct (decide _); lia.
  - replace (v mod 65536) with (v + 65536)
      by (apply Z.mod_unique with (-1); lia).
    destruct (decide _); lia.
Qed.

Lemma frombuffer_tobytes vals :
  Forall (fun v => -32768 <= v <= 32767) vals →
  frombuffer_int16 (tobytes vals) = Ok vals.
Proof.
  induction 1 as [|v vals Hv _ IH]; [done|].
  cbn [tobytes frombuffer_int16]. rewrite IH. cbn [mbind result_bind].
  by rewrite int16_le_bytes.
Qed.

(** The samples of a buffer that is read: one for every two bytes, the low
    byte first. *)
Lemma frombuffer_samples data :
  (∀ samples, frombuffer_int16 data = Ok samples →
     length data = (2 * length samples)%nat ∧
     ∀ k x, samples !! k = Some x →
       ∃ lo hi, data !! (2 * k)%nat = Some lo ∧
                data !! (2 * k + 1)%nat = Some hi ∧ x = int16_le lo hi) ∧
  (∀ b samples, frombuffer_int16 (b :: data) = Ok samples →
     length (b :: data) = (2 * length samples)%nat ∧
     ∀ k x, samples !! k = Some x →
       ∃ lo hi, (b :: data) !! (2 * k)%nat = Some lo ∧
                (b :: data) !! (2 * k + 1)%nat = Some hi ∧ x = int16_le lo hi).
Proof.
  induction data as [|hi data [IH1 IH2]].
  - split; intros; simplify_eq/=. split; [done|]. intros k x Hk. done.
  - split; [apply IH2|]. intros lo samples H. simpl in H.
    apply bind_Ok in H as (xs & Hxs & H). injection H as <-.
    apply IH1 in Hxs as [Hlen Hxs]. split; [simpl in *; lia|].
    intros [|k] x Hk; simpl in Hk.
    + injection Hk as <-. by exists lo, hi.
    + apply Hxs in Hk as (lo' & hi' & H1 & H2 & ->).
      exists lo', hi'. replace (2 * S k)%nat with (S (S (2 * k))) by lia.
      by simpl.
Qed.

Lemma frombuffer_odd data :
  Nat.Odd (length data) → frombuffer_int16 data = Err ValueError.
Proof.
  assert ((Nat.Odd (length data) → frombuffer_int16 data = Err ValueError) ∧
          ∀ b, Nat.Odd (length (b :: data)) →
               frombuffer_int16 (b :: data) = Err ValueError) as [H _];
    [|exact H].
  induction data as [|hi data [IH1 IH2]].
  - split; [intros [k Hk]; simpl in Hk; lia | done].
  - split; [apply IH2|]. intros lo Hodd. simpl.
    rewrite IH1; [done|]. destruct Hodd as [k Hk]. simpl in Hk.
    exists (k - 1)%nat. lia.
Qed.

Lemma rows_of_length {A} r k (l : list A) : length (rows_of r k l) = r.
Proof. revert l. induction r; intros l; simpl; auto. Qed.

Lemma rows_of_lookup {A} r k (l : list A) i :
  (i < r)%nat → rows_of r k l !! i = Some (take k (drop (i * k) l)).
Proof.
  revert l i. induction r as [|r IH]; intros l i Hi; [lia|].
  destruct i as [|i]; simpl; [done|].
  rewrite IH by lia. by rewrite drop_drop.
Qed.

(** Row [r] of a reshaped array holds the elements [r * k .. r * k + k - 1]
    of the flat array: the layout is row-major. *)
Lemma rows_of_row_major {A} r k (l : list A) i row :
  (r * k ≤ length l)%nat → rows_of r k l !! i = Some row →
  length row = k ∧ ∀ c, (c < k)%nat → row !! c = l !! (i * k + c)%nat.
Proof.
  intros Hlen Hrow.
  assert (i < r)%nat as Hi
    by (apply lookup_lt_Some in Hrow; by rewrite rows_of_length in Hrow).
  rewrite rows_of_lookup in Hrow by done. injection Hrow as <-.
  split.
  - rewrite length_take, length_drop. nia.
  - intros c Hc. by rewrite lookup_take_lt, lookup_drop.
Qed.

Lemma reshape_fits {A} (data : list A) ncols :
  0 < ncols <= int64_max → Z.of_nat (length data) mod ncols = 0 →
  length data ≠ O ∨ ncols < 2 ^ 60 →
  reshape data ncols =
    Ok (rows_of (length data / Z.to_nat ncols) (Z.to_nat ncols) data).
Proof.
  intros Hn Hmod Hsize. unfold reshape.
  destruct (decide (0 < ncols <= int64_max)); [|done].
  destruct (decide (_ mod _ = 0)); [|done].
  destruct (decide (_ ∧ _)) as [[H0 Hbig]|]; [|done].
  destruct Hsize; [done|lia].
Qed.

Lemma reshape_misfit {A} (data : list A) ncols :
  ¬ (ncols | Z.of_nat (length data)) → reshape data ncols = Err ValueError.
Proof.
  intros Hdiv. unfold reshape.
  destruct (decide (0 < ncols <= int64_max)); [|done].
  destruct (decide (_ mod _ = 0)) as [Hmod|]; [|done].
  destruct Hdiv. apply Z.mod_divide; [lia|done].
Qed.

Lemma reshape_Ok_inv {A} (data : list A) ncols full :
  reshape data ncols = Ok full →
  0 < ncols <= int64_max ∧ Z.of_nat (length data) mod ncols = 0 ∧
  (length data ≠ O ∨ ncols < 2 ^ 60) ∧
  full = rows_of (length data / Z.to_nat ncols) (Z.to_nat ncols) data.
Proof.
  unfold reshape.
  destruct (decide (0 < ncols <= int64_max)); [|done].
  destruct (decide (_ mod _ = 0)); [|done].
  destruct (decide (_ ∧ _)) as [|Hno]; [done|]. intros [= <-].
  do 2 (split; [done|]). split; [|done].
  destruct (decide (length data = O)); [right|by left].
  destruct (decide (ncols < 2 ^ 60)); [done|]. destruct Hno. split; [done|lia].
Qed.

Lemma div_exact_rows n k :
  (0 < k)%nat → Z.of_nat n mod Z.of_nat k = 0 → (n / k * k = n)%nat.
Proof.
  intros Hk Hmod.
  assert (n mod k = 0)%nat as H0.
  { apply Nat2Z.inj. rewrite Nat2Z.inj_mod. exact Hmod. }
  pose proof (Nat.div_mod_eq n k). lia.
Qed.

Lemma select_columns_Ok data ncols index cols :
  mapR (normalize_index ncols) index = Ok cols →
  select_columns data ncols index =
    Ok (map (fun row => map (fun c => nth c row 0%float) cols) data).
Proof. intros H. unfold select_columns. by rewrite H. Qed.

Lemma frombuffer_even data :
  Nat.Even (length data) → ∃ samples, frombuffer_int16 data = Ok samples.
Proof.
  assert ((Nat.Even (length data) → ∃ s, frombuffer_int16 data = Ok s) ∧
          ∀ b, Nat.Even (length (b :: data)) →
               ∃ s, frombuffer_int16 (b :: data) = Ok s) as [H _];
    [|exact H].
  induction data as [|hi data [IH1 IH2]].
  - split; [by exists []|]. intros b [k Hk]. simpl in Hk. lia.
  - split; [apply IH2|]. intros lo [k Hk]. simpl in Hk.
    destruct IH1 as [s Hs]; [exists (k - 1)%nat; lia|].
    simpl. rewrite Hs. simpl. by eexists.
Qed.

(** C8: a buffer written from [N] rows of [M] known 16-bit values, decoded
    with [track_totalnumber = M] and the channel indices 0 and 2, gives a
    matrix of exactly [N] rows whose two columns are the columns 0 and 2 of
    the reshaped matrix, in that order. The buffer holds a row, or the
    columns are fewer than [2 ** 60]: an empty array of more columns is no
    array [np.reshape] gives. *)
Theorem decode_selects_columns (N M : nat) (vals : list Z) :
  length vals = (N * M)%nat →
  Forall (fun v => -32768 <= v <= 32767) vals →
  (3 ≤ M)%nat → Z.of_nat M <= int64_max →
  (0 < N)%nat ∨ Z.of_nat M < 2 ^ 60 →
  ∃ full sel,
    reshape (map float_of_Z vals) (Z.of_nat M) = Ok full ∧
    decode (tobytes vals) (Z.of_nat M) [0; 2] = Ok sel ∧
    length full = N ∧ length sel = N ∧
    ∀ r, (r < N)%nat →
      ∃ row x0 x2,
        full !! r = Some row ∧
        (∀ c, (c < M)%nat →
              row !! c = float_of_Z <$> vals !! (r * M + c)%nat) ∧
        row !! 0%nat = Some x0 ∧ row !! 2%nat = Some x2 ∧
        sel !! r = Some [x0; x2].
Proof.
  intros Hlen Hvals HM Hmax Hsize.
  set (flat := map float_of_Z vals).
  assert (length flat = (N * M)%nat) as Hflat
    by (unfold flat; by rewrite length_map).
  assert (reshape flat (Z.of_nat M) = Ok (rows_of N M flat)) as Hfull.
  { rewrite reshape_fits.
    - by rewrite Nat2Z.id, Hflat, Nat.div_mul by lia.
    - lia.
    - rewrite Hflat, Nat2Z.inj_mul. apply Z.mod_mul. lia.
    - rewrite Hflat. destruct Hsize; [left; nia|by right]. }
  assert (mapR (normalize_index (Z.of_nat M)) [0; 2] = Ok [0%nat; 2%nat])
    as Hcols.
  { simpl. unfold normalize_index.
    destruct (decide _); [|lia]. destruct (decide _); [|lia]. simpl.
    by rewrite !Z.mod_small by lia. }
  exists (rows_of N M flat),
    (map (fun row => map (fun c => nth c row 0%float) [0%nat; 2%nat])
         (rows_of N M flat)).
  split; [done|]. split.
  { unfold decode. rewrite frombuffer_tobytes by done.
    cbn [mbind result_bind]. fold flat. rewrite Hfull.
    cbn [mbind result_bind]. by apply select_columns_Ok. }
  split; [apply rows_of_length|].
  split; [by rewrite length_map, rows_of_length|].
  intros r Hr.
  destruct (lookup_lt_is_Some_2 (rows_of N M flat) r) as [row Hrow];
    [by rewrite rows_of_length|].
  pose proof Hrow as Hrm.
  apply rows_of_row_major in Hrm as [Hrowlen Hrm]; [|lia].
  destruct (lookup_lt_is_Some_2 row 0) as [x0 H0]; [lia|].
  destruct (lookup_lt_is_Some_2 row 2) as [x2 H2]; [lia|].
  exists row, x0, x2. split; [done|]. split.
  { intros c Hc. rewrite Hrm by done. unfold flat.
    by rewrite list_lookup_fmap. }
  split; [done|]. split; [done|].
  rewrite list_lookup_fmap, Hrow. simpl.
  by rewrite (nth_lookup_Some _ _ _ _ H0), (nth_lookup_Some _ _ _ _ H2).
Qed.

Lemma decode_selects_columns_witness :
  ∃ sel, decode (tobytes ramp) 3 [0; 2] = Ok sel ∧
    sel = [[2048; 2]; [3; 5]; [6; 8]; [-9; -11]]%float.
Proof.
  destruct (decode_selects_columns 4 3 ramp) as (full & sel & _ & Hsel & _).
  - reflexivity.
  - repeat constructor; vm_compute; congruence.
  - lia.
  - vm_compute. intros H; discriminate H.
  - left. lia.
  - exists sel. split; [exact Hsel|].
    vm_compute in Hsel. congruence.
Defined.

(** ** Calibration *)

Lemma calibrate_column_params h data n :
  calibrate_column h data n =
    p ← channel_params h n; Ok (map (alter (calibrated_with p) n) data).
Proof.
  unfold calibrate_column, channel_params.
  destruct (getitem (unity_of_measurement h) n) as [unit|]; [simpl|done].
  destruct (unit_factor unit) as [factor|]; [simpl|done].
  destruct (getitem (power_supply h) n) as [ps|]; [simpl|done].
  destruct (getitem (ad_bits h) n) as [bits|]; [simpl|done].
  destruct (pow2_int64 bits) as [pow|]; [simpl|done].
  by destruct (getitem (signal_gain h) n) as [gain|].
Qed.

(** The loop over the channels [s .. s + len - 1] rewrites exactly these
    columns, each one with the numbers of its own channel. *)
Lemma calibrate_columns_seq h len : ∀ s data cal,
  calibrate_columns h data (seq s len) = Ok cal →
  length cal = length data ∧
  ∀ r row, data !! r = Some row →
    ∃ row', cal !! r = Some row' ∧ length row' = length row ∧
      ∀ n x, row !! n = Some x →
        ((s ≤ n < s + len)%nat →
         ∃ p, channel_params h n = Ok p ∧
              row' !! n = Some (calibrated_with p x)) ∧
        (¬ (s ≤ n < s + len)%nat → row' !! n = Some x).
Proof.
  induction len as [|len IH]; intros s data cal H; simpl in H.
  - injection H as <-. split; [done|]. intros r row Hr.
    exists row. repeat split; [done|lia|done].
  - apply bind_Ok in H as (data1 & H1 & H).
    rewrite calibrate_column_params in H1.
    apply bind_Ok in H1 as (p & Hp & H1). injection H1 as <-.
    apply IH in H as [Hlen H]. split; [by rewrite Hlen, length_map|].
    intros r row Hr.
    destruct (H r (alter (calibrated_with p) s row)) as (row' & Hr' & Hl & Hn);
      [by rewrite list_lookup_fmap, Hr|].
    exists row'. split; [done|]. split; [by rewrite Hl, length_alter|].
    intros n x Hx. destruct (decide (n = s)) as [->|Hne].
    + destruct (Hn s (calibrated_with p x)) as [_ Hout];
        [by rewrite list_lookup_alter, decide_True, Hx by done|].
      split; [intros _; exists p; split; [done|apply Hout; lia] | lia].
    + destruct (Hn n x) as [Hin Hout];
        [by rewrite list_lookup_alter_ne by done|].
      split; intros Hrange; [apply Hin | apply Hout]; lia.
Qed.

Lemma channel_params_Ok h n p :
  channel_params h n = Ok p →
  ∃ unit factor bits pow ps gain,
    unity_of_measurement h !! n = Some unit ∧ unit_factor unit = Ok factor ∧
    power_supply h !! n = Some ps ∧
    ad_bits h !! n = Some bits ∧ pow2_int64 bits = Ok pow ∧
    signal_gain h !! n = Some gain ∧ p = (ps, pow, factor, gain).
Proof.
  unfold channel_params. intros H.
  apply bind_Ok in H as (unit & Hu & H). apply bind_Ok in H as (factor & Hf & H).
  apply bind_Ok in H as (ps & Hps & H). apply bind_Ok in H as (bits & Hb & H).
  apply bind_Ok in H as (pow & Hpow & H). apply bind_Ok in H as (gain & Hg & H).
  injection H as <-. apply getitem_Ok in Hu, Hps, Hb, Hg.
  exists unit, factor, bits, pow, ps, gain. by repeat split.
Qed.

Lemma pow2_int64_exact bits pow :
  pow2_int64 bits = Ok pow → bits <= 62 → 0 <= bits ∧ pow = 2 ^ bits.
Proof.
  unfold pow2_int64. intros H Hb.
  destruct (decide (bits < 0)); [discriminate|].
  destruct (decide (64 <= bits)); [lia|]. injection H as <-.
  split; [lia|]. unfold wrap64.
  assert (0 < 2 ^ bits) by (apply Z.pow_pos_nonneg; lia).
  assert (2 ^ bits <= 2 ^ 62) by (apply Z.pow_le_mono_r; lia).
  rewrite Z.mod_small; lia.
Qed.

Lemma unit_factor_cases u :
  unit_factor (Some "mV") = Ok 1000 ∧ unit_factor (Some "V") = Ok 1 ∧
  (u ≠ Some "mV" → u ≠ Some "V" → unit_factor u = Err UnrecognizedUnit).
Proof.
  split; [done|]. split; [done|]. intros H1 H2. unfold unit_factor.
  destruct (decide _); [done|]. by destruct (decide _).
Qed.

(** The rows of the selected matrix have one entry per channel index. *)
Lemma select_columns_rows data ncols index sel :
  select_columns data ncols index = Ok sel →
  length sel = length data ∧ Forall (fun row => length row = length index) sel.
Proof.
  unfold select_columns. intros H. apply bind_Ok in H as (cols & Hcols & H).
  injection H as <-. split; [by rewrite length_map|].
  apply Forall_fmap, Forall_forall. intros row _. simpl.
  rewrite length_map. by apply mapR_length in Hcols.
Qed.

Lemma time_column_length rows ts : length (time_column rows ts) = rows.
Proof. unfold time_column. by rewrite length_map, length_seq. Qed.

Lemma time_column_lookup rows ts i :
  (i < rows)%nat →
  time_column rows ts !! i = Some (float_of_Z (Z.of_nat i) * ts)%float.
Proof.
  intros Hi. unfold time_column. rewrite list_lookup_fmap.
  by rewrite (proj2 (lookup_seq 0 rows i i)) by lia.
Qed.

Lemma column_stack_lookup data time r row :
  length time = length data → data !! r = Some row →
  ∃ t, time !! r = Some t ∧ column_stack data time !! r = Some (row ++ [t]).
Proof.
  intros Hlen Hrow.
  destruct (lookup_lt_is_Some_2 time r) as [t Ht];
    [rewrite Hlen; by eapply lookup_lt_Some|].
  exists t. split; [done|]. unfold column_stack.
  by rewrite lookup_zip_with, Hrow, Ht.
Qed.

Lemma column_stack_length data time :
  length time = length data → length (column_stack data time) = length data.
Proof. intros H. unfold column_stack. rewrite length_zip_with. lia. Qed.

Lemma last_column_stack data time :
  length time = length data → last_column (column_stack data time) = time.
Proof.
  unfold last_column, column_stack. revert time.
  induction data as [|row data IH]; intros [|t time] Hlen; simpl in *;
    try done.
  rewrite last_snoc. simpl. f_equal. apply IH. lia.
Qed.

Section Calibration.

Variable py_float : string → option float.
Variable py_int : string → option Z.

Lemma read_signals_rows m sp tn index raw :
  read_signals py_int m sp tn index = Ok raw →
  Forall (fun row => length row = length index) raw.
Proof.
  unfold read_signals, decode. intros H.
  apply bind_Ok in H as (ncols & _ & H). apply bind_Ok in H as (data & _ & H).
  apply bind_Ok in H as (samples & _ & H). apply bind_Ok in H as (full & _ & H).
  by apply select_columns_rows in H as [_ H].
Qed.

(** Every entry of [power_supply] is the constant of line 59. *)
Lemma power_supply_forced root st h n :
  read_headers py_float root = Ok st →
  coerce py_float py_int (hdrs st) = Ok h →
  (n < n_signals st)%nat → power_supply h !! n = Some 5%float.
Proof.
  intros Hst Hh Hn.
  pose proof (read_headers_aligned _ _ _ Hst) as (_ & _ & _ & A4 & _).
  apply read_headers_fields in Hst as (_ & _ & F3 & _).
  apply coerce_Ok in Hh as (_ & _ & _ & -> & _).
  destruct (lookup_lt_is_Some_2 (power_supply (hdrs st)) n) as [z Hz];
    [lia|].
  rewrite list_lookup_fmap, Hz. rewrite F3, list_lookup_fmap in Hz.
  destruct (selected root !! n); simplify_eq/=. reflexivity.
Qed.

End Calibration.

Lemma pow2_int64_cases bits pow :
  pow2_int64 bits = Ok pow →
  0 <= bits ∧ (bits <= 62 → pow = 2 ^ bits) ∧
  (bits = 63 → pow = - 2 ^ 63) ∧ (64 <= bits → pow = 0).
Proof.
  intros H. pose proof (pow2_int64_exact bits pow H) as Hexact.
  unfold pow2_int64 in H.
  destruct (decide (bits < 0)); [discriminate|].
  split; [lia|]. split; [intros Hb; by apply Hexact|].
  destruct (decide (64 <= bits)).
  - injection H as <-. split; [lia|done].
  - injection H as <-. split; [by intros ->|lia].
Qed.

(** Line 105 in a conversion that reaches the output: the exported value of
    row [r] and channel [n] is the raw sample taken through the operations
    in order, with the constants of the [n]-th selected node. *)
Lemma convert_calibrated py_float py_int a h m s0 rest sp tn :
  convert py_float py_int a = Ok (Some (h, m)) →
  selected (form_dock00 a) = s0 :: rest →
  ET.find "signal_path" s0 = Some sp →
  ET.find "track_totalnumber" s0 = Some tn →
  ∃ raw,
    read_signals py_int (members a) sp tn (track_index h) = Ok raw ∧
    length m = length raw ∧
    ∀ r row n x, raw !! r = Some row → row !! n = Some x →
      ∃ s out factor bits pow gain,
        (s0 :: rest) !! n = Some s ∧
        unity_of_measurement h !! n
          = Some (field "unity_of_measurement" s) ∧
        unit_factor (field "unity_of_measurement" s) = Ok factor ∧
        power_supply h !! n = Some 5%float ∧
        ad_bits h !! n = Some bits ∧ pow2_int64 bits = Ok pow ∧
        signal_gain h !! n = Some gain ∧
        m !! r = Some out ∧
        out !! n =
          Some (x * 5 / float_of_Z pow * float_of_Z factor / gain)%float.
Proof.
  intros H Hsel Hsp0 Htn0.
  apply convert_Some in H as (st & c & sp' & tn' & raw & cal & H).
  destruct H as (Hst & Hc & Hsp & Htn & Hh & Hraw & Hcal & ->).
  pose proof (read_headers_Ok _ _ _ Hst) as (Hns & _ & Hsh).
  rewrite Hsel in Hsh, Hns. destruct Hsh as (f & ts & _ & _ & Hsh).
  rewrite Hsh in Hc. injection Hc as <-. simpl in Hsp, Htn.
  assert (sp' = sp) as -> by congruence.
  assert (tn' = tn) as -> by congruence.
  exists raw. split; [done|].
  apply calibrate_columns_seq in Hcal as [Hlen Hcal].
  split.
  { rewrite column_stack_length; [done|apply time_column_length]. }
  intros r row n x Hrow Hx.
  destruct (Hcal r row Hrow) as (row' & Hrow' & Hl & Hn).
  destruct (Hn n x Hx) as [Hin _].
  assert (n < n_signals st)%nat as Hlt.
  { apply lookup_lt_Some in Hx.
    pose proof (read_signals_rows _ _ _ _ _ _ Hraw) as Hrows.
    rewrite Forall_lookup in Hrows. rewrite (Hrows r row Hrow) in Hx.
    pose proof (read_headers_aligned _ _ _ Hst) as Hal.
    eapply coerce_aligned in Hal as (A1 & _); [|exact Hh]. lia. }
  destruct Hin as (p & Hp & Hout); [lia|].
  apply channel_params_Ok in Hp
    as (unit & factor & bits & pow & ps & gain & Hp).
  destruct Hp as (Hu & Hf & Hps & Hb & Hpow & Hg & ->).
  pose proof (power_supply_forced _ _ _ _ _ _ Hst Hh Hlt) as Hps5.
  assert (ps = 5%float) as -> by congruence.
  destruct (lookup_lt_is_Some_2 (s0 :: rest) n) as [s Hs]; [lia|].
  assert (unit = field "unity_of_measurement" s) as ->.
  { pose proof (read_headers_fields _ _ _ Hst) as (_ & F2 & _).
    pose proof (coerce_Ok _ _ _ _ Hh) as (_ & _ & H3 & _).
    rewrite H3, F2, Hsel, list_lookup_fmap, Hs in Hu. by injection Hu. }
  destruct (column_stack_lookup cal (time_column (length cal) ts)
              r row') as (t & _ & Hm);
    [by rewrite time_column_length|done|].
  exists s, (row' ++ [t]), factor, bits, pow, gain.
  do 8 (split; [done|]).
  rewrite lookup_app_l; [done|].
  rewrite Hl. by eapply lookup_lt_Some.
Qed.

(** C3: in a conversion that reaches the output, the exported value of row
    [r] and channel [n] is the raw sample [x] of the selected matrix taken
    through line 105 from left to right,
    [x * power_supply[n] / 2 ** ad_bits[n] * factor / signal_gain[n]], with
    [power_supply[n] = 5], the factor of the channel's unit and the power
    computed in [int64]: the bit count is not negative, the power is the
    exact power of two up to 62 bits, [- 2 ** 63] for 63 bits and [0] from
    64 bits on. For the raw value 2048, 12 bits, the unit V and the gain 2
    the value is 1.25. *)
Theorem calibration_formula py_float py_int :
  (∀ a h m s0 rest sp tn,
     convert py_float py_int a = Ok (Some (h, m)) →
     selected (form_dock00 a) = s0 :: rest →
     ET.find "signal_path" s0 = Some sp →
     ET.find "track_totalnumber" s0 = Some tn →
     ∃ raw,
       read_signals py_int (members a) sp tn (track_index h) = Ok raw ∧
       length m = length raw ∧
       ∀ r row n x, raw !! r = Some row → row !! n = Some x →
         ∃ out unit factor bits pow gain,
           m !! r = Some out ∧
           unity_of_measurement h !! n = Some unit ∧
           unit_factor unit = Ok factor ∧
           power_supply h !! n = Some 5%float ∧
           ad_bits h !! n = Some bits ∧ pow2_int64 bits = Ok pow ∧
           0 <= bits ∧ (bits <= 62 → pow = 2 ^ bits) ∧
           (bits = 63 → pow = - 2 ^ 63) ∧ (64 <= bits → pow = 0) ∧
           signal_gain h !! n = Some gain ∧
           out !! n =
             Some (x * 5 / float_of_Z pow * float_of_Z factor / gain)%float) ∧
  unit_factor (Some "V") = Ok 1 ∧ pow2_int64 12 = Ok 4096 ∧
  (2048 * 5 / float_of_Z 4096 * float_of_Z 1 / 2)%float = 1.25%float.
Proof.
  split; [|by vm_compute].
  intros a h m s0 rest sp tn H Hsel Hsp Htn.
  destruct (convert_calibrated _ _ _ _ _ _ _ _ _ H Hsel Hsp Htn)
    as (raw & Hraw & Hlen & Hval).
  exists raw. do 2 (split; [done|]).
  intros r row n x Hrow Hx.
  destruct (Hval r row n x Hrow Hx)
    as (s & out & factor & bits & pow & gain & _ & Hu & Hf & Hps & Hb & Hpow
        & Hg & Hm & Hout).
  pose proof (pow2_int64_cases _ _ Hpow) as (P0 & P1 & P2 & P3).
  exists out, (field "unity_of_measurement" s), factor, bits, pow, gain.
  by do 11 (split; [done|]).
Qed.

Lemma calibration_formula_witness :
  let a := recording [emg; rms; aux] ramp in
  ∃ h m out, convert Numeral.float Numeral.int a = Ok (Some (h, m)) ∧
    m !! 0%nat = Some out ∧ out !! 0%nat = Some 1.25%float.
Proof.
  intros a.
  destruct (convert Numeral.float Numeral.int a) as [[[h m]|]|] eqn:Hc;
    [|vm_compute in Hc; discriminate Hc..].
  destruct (proj1 (calibration_formula Numeral.float Numeral.int) a h m
              (signal_node emg) [signal_node aux]
              (node "signal_path" "rec.sig") (node "track_totalnumber" "3")
              Hc eq_refl eq_refl eq_refl)
    as (raw & Hraw & _ & H).
  vm_compute in Hc. injection Hc as <- <-.
  vm_compute in Hraw. injection Hraw as <-.
  destruct (H 0%nat [2048; 2]%float 0%nat 2048%float eq_refl eq_refl)
    as (out & unit & factor & bits & pow & gain & Hm & Hu & Hf & _ & Hb & Hp
        & _ & _ & _ & _ & Hg & Hout).
  eexists. eexists. exists out. split; [reflexivity|]. split; [exact Hm|].
  vm_compute in Hu, Hb, Hg. simplify_eq. vm_compute in Hf, Hp. simplify_eq.
  exact Hout.
Defined.

(** With 64 bits the divisor of line 105 is [0], not [2 ** 64]: the
    exported value of the raw sample 2048 is infinite, where the quotient by
    the exact power is [2048 * 5 / 2 ** 64 / 2]. *)
Lemma calibration_power_wraps :
  let a := recording [setting "ad_bits" "64" emg] ramp in
  ∃ h m out v,
    convert Numeral.float Numeral.int a = Ok (Some (h, m)) ∧
    ad_bits h = [64] ∧ power_supply h = [5%float] ∧
    unity_of_measurement h = [Some "V"] ∧ signal_gain h = [2%float] ∧
    pow2_int64 64 = Ok 0 ∧
    m !! 0%nat = Some out ∧ out !! 0%nat = Some v ∧ v = infinity ∧
    PrimFloat.eqb v (2048 * 5 / float_of_Z (2 ^ 64) * float_of_Z 1 / 2)%float
      = false.
Proof.
  do 4 eexists. split; [vm_compute; reflexivity|]. by vm_compute.
Qed.

(** ** Units *)

Lemma calibrate_columns_bad_unit h n u len : ∀ s data,
  (s ≤ n < s + len)%nat →
  unity_of_measurement h !! n = Some u → u ≠ Some "mV" → u ≠ Some "V" →
  is_Err (calibrate_columns h data (seq s len)).
Proof.
  induction len as [|len IH]; intros s data Hn Hu H1 H2; [lia|]. simpl.
  destruct (decide (n = s)) as [->|Hne].
  - apply bind_Err. unfold calibrate_column, getitem. rewrite Hu. simpl.
    rewrite (proj2 (proj2 (unit_factor_cases u))) by done. by eexists.
  - apply bind_Err_later. intros data' _. apply IH; [lia|done..].
Qed.

(** With aligned headers and no negative bit count, the only exception of
    the calibration loop is the one of line 101. *)
Lemma calibrate_column_Err h data k n e :
  aligned k h → (n < k)%nat → Forall (fun b => 0 <= b) (ad_bits h) →
  calibrate_column h data n = Err e → e = UnrecognizedUnit.
Proof.
  intros (_ & _ & A3 & A4 & _ & A6 & A7 & _) Hn Hbits.
  unfold calibrate_column, getitem.
  destruct (lookup_lt_is_Some_2 (unity_of_measurement h) n) as [u ->]; [lia|].
  destruct (lookup_lt_is_Some_2 (power_supply h) n) as [ps ->]; [lia|].
  destruct (lookup_lt_is_Some_2 (ad_bits h) n) as [bits Hb]; [lia|].
  destruct (lookup_lt_is_Some_2 (signal_gain h) n) as [gain ->]; [lia|].
  rewrite Hb. simpl. unfold unit_factor.
  assert (0 <= bits) as Hpos by (rewrite Forall_lookup in Hbits; eauto).
  repeat destruct (decide _); simpl; unfold pow2_int64;
    repeat destruct (decide _); simpl; try lia; congruence.
Qed.

Lemma calibrate_columns_Err h k len : ∀ s data e,
  aligned k h → (s + len ≤ k)%nat → Forall (fun b => 0 <= b) (ad_bits h) →
  calibrate_columns h data (seq s len) = Err e → e = UnrecognizedUnit.
Proof.
  induction len as [|len IH]; intros s data e Hal Hk Hbits H; simpl in H;
    [discriminate|].
  destruct (calibrate_column h data s) as [data'|e'] eqn:Hcol; simpl in H.
  - eapply IH; [done| |done..]. lia.
  - injection H as <-. eapply calibrate_column_Err; [done| |done..]. lia.
Qed.

(** C4: in a conversion that reaches the output, channel [n] has the unit mV
    or V, as the [n]-th selected node spells it, and its exported values are
    the raw samples taken through line 105 with the factor 1000 for mV and
    1 for V. When a selected channel has any other unit, [otread] writes no
    file; it raises the exception of line 101 when no output exists yet,
    the stages before the calibration succeed and no bit count is
    negative. *)
Theorem unrecognized_unit py_float py_int :
  (∀ a h m s0 rest sp tn,
     convert py_float py_int a = Ok (Some (h, m)) →
     selected (form_dock00 a) = s0 :: rest →
     ET.find "signal_path" s0 = Some sp →
     ET.find "track_totalnumber" s0 = Some tn →
     ∃ raw,
       read_signals py_int (members a) sp tn (track_index h) = Ok raw ∧
       ∀ r row n x, raw !! r = Some row → row !! n = Some x →
         ∃ s out factor bits pow gain,
           selected (form_dock00 a) !! n = Some s ∧
           (field "unity_of_measurement" s = Some "mV" ∧ factor = 1000 ∨
            field "unity_of_measurement" s = Some "V" ∧ factor = 1) ∧
           ad_bits h !! n = Some bits ∧ pow2_int64 bits = Ok pow ∧
           signal_gain h !! n = Some gain ∧
           m !! r = Some out ∧
           out !! n =
             Some (x * 5 / float_of_Z pow * float_of_Z factor / gain)%float) ∧
  ∀ pathname filename fs a n s,
    tarfile_open fs (os_path_join pathname filename) = Ok a →
    selected (form_dock00 a) !! n = Some s →
    field "unity_of_measurement" s ≠ Some "mV" →
    field "unity_of_measurement" s ≠ Some "V" →
    (otread py_float py_int pathname filename fs).2 = fs ∧
    ∀ st c sp tn h raw,
      ¬ outputs_exist pathname filename fs →
      read_headers py_float (form_dock00 a) = Ok st →
      shared st = Some c →
      signal_path c = Some sp → track_totalnumber c = Some tn →
      coerce py_float py_int (hdrs st) = Ok h →
      read_signals py_int (members a) sp tn (track_index h) = Ok raw →
      Forall (fun b => 0 <= b) (ad_bits h) →
      otread py_float py_int pathname filename fs =
        (Err UnrecognizedUnit, fs).
Proof.
  split.
  { intros a h m s0 rest sp tn H Hsel Hsp Htn.
    destruct (convert_calibrated _ _ _ _ _ _ _ _ _ H Hsel Hsp Htn)
      as (raw & Hraw & _ & Hval).
    exists raw. split; [done|]. intros r row n x Hrow Hx.
    destruct (Hval r row n x Hrow Hx)
      as (s & out & factor & bits & pow & gain & Hs & _ & Hf & _ & Hb & Hpow
          & Hg & Hm & Hout).
    exists s, out, factor, bits, pow, gain.
    split; [by rewrite Hsel|]. split; [|done].
    unfold unit_factor in Hf.
    destruct (decide (field "unity_of_measurement" s = Some "mV"));
      [left; split; [done|congruence]|].
    destruct (decide (field "unity_of_measurement" s = Some "V"));
      [right; split; [done|congruence]|discriminate]. }
  intros pathname filename fs a n s Ha Hs H1 H2.
  assert (∀ st h raw,
            read_headers py_float (form_dock00 a) = Ok st →
            coerce py_float py_int (hdrs st) = Ok h →
            is_Err (calibrate h (n_signals st) raw)) as Hcal.
  { intros st h raw Hst Hh.
    eapply (calibrate_columns_bad_unit h n); [|..|exact H1|exact H2].
    - pose proof (read_headers_Ok _ _ _ Hst) as (-> & _).
      apply lookup_lt_Some in Hs. lia.
    - apply read_headers_fields in Hst as (_ & F2 & _).
      apply coerce_Ok in Hh as (_ & _ & -> & _).
      by rewrite F2, list_lookup_fmap, Hs. }
  split.
  - destruct (decide (outputs_exist pathname filename fs)) as [G|G];
      [by rewrite otread_guarded|].
    rewrite otread_unguarded, Ha by done. simpl.
    destruct (convert py_float py_int a) as [[[h m]|]|e] eqn:Hc; [|done..].
    apply convert_Some in Hc as (st & c & sp & tn & raw & cal & Hc).
    destruct Hc as (Hst & _ & _ & _ & Hh & _ & Hc & _).
    destruct (Hcal st h raw Hst Hh) as [e He]. congruence.
  - intros st c sp tn h raw G Hst Hc Hsp Htn Hh Hraw Hbits.
    rewrite otread_unguarded, Ha by done. simpl. unfold convert.
    rewrite Hst. simpl. rewrite Hc, Hsp, Htn, Hh. simpl. rewrite Hraw. simpl.
    destruct (Hcal st h raw Hst Hh) as [e He]. rewrite He. simpl.
    apply calibrate_columns_Err with (k := n_signals st) in He as ->;
      [done| |simpl; lia|done].
    eapply coerce_aligned; [exact Hh|]. by eapply read_headers_aligned.
Qed.

Lemma unrecognized_unit_witness :
  let a := recording [emg; rms; aux] ramp in
  let b := recording [emg; setting "unity_of_measurement" "uV" aux] ramp in
  (∃ h m out,
     convert Numeral.float Numeral.int a = Ok (Some (h, m)) ∧
     m !! 0%nat = Some out ∧
     out !! 1%nat = Some (2 * 5 / float_of_Z 65536 * float_of_Z 1000 / 1)%float)
  ∧ run b = (Err UnrecognizedUnit, disk b).
Proof.
  intros a b. split.
  { destruct (convert Numeral.float Numeral.int a) as [[[h m]|]|] eqn:Hc;
      [|vm_compute in Hc; discriminate Hc..].
    destruct (proj1 (unrecognized_unit Numeral.float Numeral.int) a h m
                (signal_node emg) [signal_node aux]
                (node "signal_path" "rec.sig") (node "track_totalnumber" "3")
                Hc eq_refl eq_refl eq_refl)
      as (raw & Hraw & H).
    vm_compute in Hc. injection Hc as <- <-.
    vm_compute in Hraw. injection Hraw as <-.
    destruct (H 0%nat [2048; 2]%float 1%nat 2%float eq_refl eq_refl)
      as (s & out & factor & bits & pow & gain & Hs & Hu & Hb & Hp & Hg & Hm
          & Hout).
    eexists. eexists. exists out. split; [reflexivity|]. split; [exact Hm|].
    vm_compute in Hs. injection Hs as <-.
    vm_compute in Hb, Hg. simplify_eq. vm_compute in Hp. simplify_eq.
    destruct Hu as [[_ ->]|[Hu _]]; [exact Hout|].
    vm_compute in Hu. discriminate Hu. }
  destruct (read_headers Numeral.float (form_dock00 b)) as [st|] eqn:Hst;
    [|vm_compute in Hst; discriminate Hst].
  destruct (coerce Numeral.float Numeral.int (hdrs st)) as [h|] eqn:Hh;
    [|vm_compute in Hst; injection Hst as <-;
      vm_compute in Hh; discriminate Hh].
  destruct (read_signals Numeral.int (members b)
              (node "signal_path" "rec.sig") (node "track_totalnumber" "3")
              (track_index h)) as [raw|] eqn:Hraw;
    [|vm_compute in Hst; injection Hst as <-;
      vm_compute in Hh; injection Hh as <-;
      vm_compute in Hraw; discriminate Hraw].
  destruct (proj2 (unrecognized_unit Numeral.float Numeral.int)
              "/data" "rec.otb+" (disk b) b 1%nat
              (signal_node (setting "unity_of_measurement" "uV" aux))
              eq_refl eq_refl) as [_ H].
  - vm_compute. intros H; discriminate H.
  - vm_compute. intros H; discriminate H.
  - eapply (H st _ _ _ h raw).
    + intros [[x Hx]|[x Hx]]; vm_compute in Hx; discriminate Hx.
    + exact Hst.
    + vm_compute in Hst. injection Hst as <-. reflexivity.
    + reflexivity.
    + reflexivity.
    + exact Hh.
    + exact Hraw.
    + vm_compute in Hst. injection Hst as <-.
      vm_compute in Hh. injection Hh as <-.
      repeat constructor; vm_compute; congruence.
Defined.

(** A selected channel with the unit uV in an archive whose first selected
    node has no [signal_path]: the call returns normally, raising
    nothing. *)
Lemma unrecognized_unit_silent :
  let s := signal_node
             (without "signal_path" (setting "unity_of_measurement" "uV" emg))
  in
  let a :=
    recording [without "signal_path" (setting "unity_of_measurement" "uV" emg)]
              ramp in
  selected (form_dock00 a) = [s] ∧
  field "unity_of_measurement" s = Some "uV" ∧
  run a = (Ok (), disk a).
Proof. vm_compute. done. Qed.

(** ** The time column *)

Section Time.

Variable py_float : string → option float.
Variable py_int : string → option Z.

Lemma reciprocal_Ok f ts : reciprocal f = Ok ts → ts = (1 / f)%float.
Proof. unfold reciprocal. destruct (PrimFloat.eqb f 0); congruence. Qed.

Lemma read_signals_length m sp tn index1 index2 raw1 raw2 :
  read_signals py_int m sp tn index1 = Ok raw1 →
  read_signals py_int m sp tn index2 = Ok raw2 →
  length raw1 = length raw2.
Proof.
  unfold read_signals, decode. intros H1 H2.
  destruct (int_of_text py_int (text tn)) as [ncols|]; [|discriminate].
  destruct (open_member m (text sp)) as [data|]; [|discriminate].
  simpl in *.
  destruct (frombuffer_int16 data) as [samples|]; [|discriminate].
  simpl in *.
  destruct (reshape (map float_of_Z samples) ncols) as [full|];
    [|discriminate].
  simpl in *.
  apply select_columns_rows in H1 as [-> _].
  by apply select_columns_rows in H2 as [-> _].
Qed.

(** The table of a conversion that reaches the output: one row per row of
    the selected matrix, one column per selected channel and the time
    column last, computed from the [fsample] of the first selected node. *)
Lemma convert_table a h m s0 rest :
  convert py_float py_int a = Ok (Some (h, m)) →
  selected (form_dock00 a) = s0 :: rest →
  ∃ f0 sp tn raw,
    float_of_entry py_float (field "fsample" s0) = Ok f0 ∧
    ET.find "signal_path" s0 = Some sp ∧
    ET.find "track_totalnumber" s0 = Some tn ∧
    read_signals py_int (members a) sp tn (track_index h) = Ok raw ∧
    length m = length raw ∧
    Forall (fun row => length row = S (length (s0 :: rest))) m ∧
    last_column m = time_column (length raw) (1 / f0).
Proof.
  intros H Hsel.
  apply convert_Some in H as (st & c & sp & tn & raw & cal & H).
  destruct H as (Hst & Hc & Hsp & Htn & Hh & Hraw & Hcal & ->).
  pose proof (read_headers_Ok _ _ _ Hst) as (Hn & _ & Hsh).
  rewrite Hsel in Hsh, Hn. destruct Hsh as (f0 & ts & Hf0 & Hts & Hsh).
  rewrite Hsh in Hc. injection Hc as <-. simpl in *.
  apply reciprocal_Ok in Hts as ->.
  apply calibrate_columns_seq in Hcal as [Hlen Hcal].
  exists f0, sp, tn, raw. do 4 (split; [done|]).
  split; [by rewrite column_stack_length by apply time_column_length|].
  split; [|by rewrite last_column_stack, Hlen by apply time_column_length].
  apply Forall_lookup. intros i row Hi.
  unfold column_stack in Hi. apply lookup_zip_with_Some in Hi
    as (row' & t & -> & Hrow' & _).
  rewrite length_app. simpl.
  assert (length row' = n_signals st) as ->; [|lia].
  destruct (lookup_lt_is_Some_2 raw i) as [row Hrow];
    [rewrite <- Hlen; by eapply lookup_lt_Some|].
  destruct (Hcal i row Hrow) as (row'' & Hrow'' & Hl & _).
  assert (row'' = row') as -> by congruence. rewrite Hl.
  pose proof (read_signals_rows _ _ _ _ _ _ Hraw) as Hrows.
  rewrite Forall_lookup in Hrows. rewrite (Hrows i row Hrow).
  pose proof (read_headers_aligned _ _ _ Hst) as Hal.
  by eapply coerce_aligned in Hal as (A1 & _).
Qed.

Lemma selected_first root pre s0 post :
  ET.iter "signal" root = pre ++ s0 :: post →
  Forall (fun s => is_selected s = false) pre → is_selected s0 = true →
  selected root = s0 :: List.filter is_selected post.
Proof.
  unfold selected. intros -> Hpre Hs0.
  rewrite List.filter_app. simpl. rewrite Hs0.
  induction Hpre as [|s pre Hs _ IH]; simpl; [done|]. by rewrite Hs.
Qed.

End Time.

(** C5, as the code has it: in a conversion that reaches the output every
    row of the table has one entry per selected channel and the time last;
    the time column has one entry per row of the calibrated matrix, and its
    entry [i] is the product [i * (1 / fsample)] of binary64 numbers,
    [fsample] being that of the first selected channel. *)
Theorem time_column_values py_float py_int a h m s0 rest :
  convert py_float py_int a = Ok (Some (h, m)) →
  selected (form_dock00 a) = s0 :: rest →
  ∃ f0,
    float_of_entry py_float (field "fsample" s0) = Ok f0 ∧
    Forall (fun row => length row = S (length (s0 :: rest))) m ∧
    length (last_column m) = length m ∧
    ∀ i, (i < length m)%nat →
         last_column m !! i = Some (float_of_Z (Z.of_nat i) * (1 / f0))%float.
Proof.
  intros H Hsel.
  destruct (convert_table _ _ _ _ _ _ _ H Hsel)
    as (f0 & sp & tn & raw & Hf0 & _ & _ & _ & Hlen & Hrows & Htime).
  exists f0. split; [done|]. split; [done|]. rewrite Htime, Hlen.
  split; [apply time_column_length|]. intros i Hi.
  by apply time_column_lookup.
Qed.

(** C5 fails on the arithmetic: with [fsample = 10] the time of row 3 is
    [3 * 0.1], which is not the binary64 quotient [3 / 10]; and the column
    need not increase: with [fsample = -10] it decreases. *)
Lemma time_column_inexact :
  let a := recording [emg] ramp in
  let b := recording [setting "fsample" "-10" emg] ramp in
  (∃ h m t, convert Numeral.float Numeral.int a = Ok (Some (h, m)) ∧
     fsample h = [10%float] ∧ last_column m !! 3%nat = Some t ∧
     t = 0x1.3333333333334p-2%float ∧
     PrimFloat.eqb t (3 / 10)%float = false) ∧
  (∃ h m t0 t1, convert Numeral.float Numeral.int b = Ok (Some (h, m)) ∧
     last_column m !! 0%nat = Some t0 ∧ last_column m !! 1%nat = Some t1 ∧
     PrimFloat.ltb t0 t1 = false).
Proof.
  split.
  - do 3 eexists. split; [vm_compute; reflexivity|]. by vm_compute.
  - do 4 eexists. split; [vm_compute; reflexivity|]. by vm_compute.
Qed.

Lemma time_column_values_witness :
  let a := recording [emg; rms; aux] ramp in
  ∃ h m, convert Numeral.float Numeral.int a = Ok (Some (h, m)) ∧
    last_column m !! 2%nat = Some (2 * (1 / 10))%float.
Proof.
  intros a.
  destruct (convert Numeral.float Numeral.int a) as [[[h m]|]|] eqn:Hc;
    [|vm_compute in Hc; discriminate Hc..].
  destruct (time_column_values Numeral.float Numeral.int a h m
              (signal_node emg) [signal_node aux] Hc eq_refl)
    as (f0 & Hf0 & _ & _ & H).
  exists h, m. split; [reflexivity|].
  vm_compute in Hf0. injection Hf0 as <-.
  apply (H 2%nat). vm_compute in Hc. injection Hc as <- <-.
  vm_compute. lia.
Defined.

(** C9: the time column is computed from the [fsample] of the first selected
    channel alone. Two archives with the same sample files whose signal nodes
    agree up to the first selected one, and differ after it only in their
    [fsample] values, export the same time column when both conversions reach
    the output. *)
Theorem time_from_first_fsample py_float py_int
    a1 a2 pre s0 post1 post2 h1 m1 h2 m2 :
  ET.iter "signal" (form_dock00 a1) = pre ++ s0 :: post1 →
  ET.iter "signal" (form_dock00 a2) = pre ++ s0 :: post2 →
  Forall (fun s => is_selected s = false) pre → is_selected s0 = true →
  Forall2 differ_only_in_fsample post1 post2 →
  members a1 = members a2 →
  convert py_float py_int a1 = Ok (Some (h1, m1)) →
  convert py_float py_int a2 = Ok (Some (h2, m2)) →
  last_column m1 = last_column m2 ∧
  ∃ f0, float_of_entry py_float (field "fsample" s0) = Ok f0 ∧
        last_column m1 = time_column (length m1) (1 / f0).
Proof.
  intros I1 I2 Hpre Hs0 _ Hmem H1 H2.
  apply selected_first in I1; [|done..]. apply selected_first in I2; [|done..].
  destruct (convert_table _ _ _ _ _ _ _ H1 I1)
    as (f1 & sp1 & tn1 & raw1 & Hf1 & Hsp1 & Htn1 & Hraw1 & Hl1 & _ & Ht1).
  destruct (convert_table _ _ _ _ _ _ _ H2 I2)
    as (f2 & sp2 & tn2 & raw2 & Hf2 & Hsp2 & Htn2 & Hraw2 & Hl2 & _ & Ht2).
  assert (f2 = f1) as -> by congruence.
  assert (sp2 = sp1) as -> by congruence.
  assert (tn2 = tn1) as -> by congruence.
  rewrite <- Hmem in Hraw2.
  pose proof (read_signals_length _ _ _ _ _ _ _ _ Hraw1 Hraw2) as Hlen.
  split; [by rewrite Ht1, Ht2, Hlen|].
  exists f1. split; [done|]. by rewrite Ht1, Hl1.
Qed.

Lemma time_from_first_fsample_witness :
  let a1 := recording [emg; rms; aux] ramp in
  let a2 := recording [emg; rms; setting "fsample" "2048" aux] ramp in
  ∃ h1 m1 h2 m2,
    convert Numeral.float Numeral.int a1 = Ok (Some (h1, m1)) ∧
    convert Numeral.float Numeral.int a2 = Ok (Some (h2, m2)) ∧
    fsample h1 = [10; 10]%float ∧ fsample h2 = [10; 2048]%float ∧
    last_column m1 = last_column m2.
Proof.
  intros a1 a2.
  destruct (convert Numeral.float Numeral.int a1) as [[[h1 m1]|]|] eqn:H1;
    [|vm_compute in H1; discriminate H1..].
  destruct (convert Numeral.float Numeral.int a2) as [[[h2 m2]|]|] eqn:H2;
    [|vm_compute in H2; discriminate H2..].
  destruct (time_from_first_fsample Numeral.float Numeral.int a1 a2
              [] (signal_node emg)
              [signal_node rms; signal_node aux]
              [signal_node rms; signal_node (setting "fsample" "2048" aux)]
              h1 m1 h2 m2) as [H _]; try reflexivity; try assumption.
  - constructor.
  - repeat constructor.
  - exists h1, m1, h2, m2. do 2 (split; [reflexivity|]).
    vm_compute in H1, H2. injection H1 as <- <-. injection H2 as <- <-.
    split; [reflexivity|]. split; [reflexivity|]. exact H.
Defined.

(** * Further properties of the conversion and of the batch driver *)

(** ** The names of the outputs *)

#[local] Arguments String.append : simpl nomatch.

Lemma string_app_nil_r s : s +:+ "" = s.
Proof. induction s as [|c s IH]; simpl; [done|by rewrite IH]. Qed.

Lemma string_app_inv_l a x y : a +:+ x = a +:+ y → x = y.
Proof.
  induction a as [|c a IH]; simpl; intros H; [exact H|].
  injection H as H. auto.
Qed.

Lemma prefix_app a b : String.prefix a (a +:+ b) = true.
Proof.
  induction a as [|c a IH]; simpl; [by destruct b|].
  by destruct (Ascii.ascii_dec c c).
Qed.

Lemma prefix_inv a b : String.prefix a b = true → ∃ c, b = a +:+ c.
Proof.
  revert b. induction a as [|x a IH]; intros b H; [by exists b|].
  destruct b as [|y b]; simpl in H; [discriminate|].
  destruct (Ascii.ascii_dec x y) as [->|]; [|discriminate].
  destruct (IH b H) as [c ->]. by exists c.
Qed.

Lemma replace_from_skip old new x s :
  replace_from old new (String.length x) (x +:+ s) = replace_from old new O s.
Proof. induction x as [|c x IH]; simpl; [by destruct s|done]. Qed.

(** An occurrence at the very start is replaced and the scan goes on after
    it. *)
Lemma replace_hit c old new s :
  replace (String c old) new (String c old +:+ s) =
  new +:+ replace (String c old) new s.
Proof.
  unfold replace. cbn [String.append replace_from].
  change (String c (old +:+ s)) with (String c old +:+ s).
  rewrite prefix_app. f_equal. apply replace_from_skip.
Qed.

Lemma replace_miss old new c s :
  String.prefix old (String c s) = false →
  replace old new (String c s) = String c (replace old new s).
Proof. unfold replace. simpl. by intros ->. Qed.

(** Text without an occurrence is left as it is. *)
Lemma replace_absent old new s :
  (∀ pre post, s ≠ pre +:+ old +:+ post) → replace old new s = s.
Proof.
  induction s as [|c s IH]; intros H; [done|].
  rewrite replace_miss.
  - f_equal. apply IH. intros pre post ->. by apply (H (String c pre) post).
  - apply not_true_is_false. intros Hp. apply prefix_inv in Hp as [post Hp].
    by apply (H "" post).
Qed.

(** When the extension is the only occurrence, it alone is replaced. *)
Lemma replace_extension c old new stem :
  (∀ pre post, stem +:+ String c old = pre +:+ String c old +:+ post →
               pre = stem) →
  replace (String c old) new (stem +:+ String c old) = stem +:+ new.
Proof.
  induction stem as [|x stem IH]; intros H.
  - change ("" +:+ String c old) with (String c old).
    rewrite <- (string_app_nil_r (String c old)) at 2.
    rewrite replace_hit. by rewrite string_app_nil_r.
  - change (String x stem +:+ String c old)
      with (String x (stem +:+ String c old)).
    rewrite replace_miss.
    + simpl. f_equal. apply IH. intros pre post Heq.
      specialize (H (String x pre) post). simpl in H.
      rewrite Heq in H. by injection (H eq_refl).
    + apply not_true_is_false. intros Hp. apply prefix_inv in Hp as [post Hp].
      specialize (H "" post). simpl in H. simpl in Hp. rewrite Hp in H.
      by specialize (H eq_refl).
Qed.

Lemma prefix_char d c s :
  String.prefix (String d "") (String c s) =
  if Ascii.ascii_dec d c then true else false.
Proof.
  change (String.prefix (String d "") (String c s))
    with (if Ascii.ascii_dec d c then String.prefix "" s else false).
  destruct (Ascii.ascii_dec d c); [by destruct s|done].
Qed.

Lemma os_path_join_inj a stem x y :
  os_path_join a (stem +:+ String "." x) = os_path_join a (stem +:+ String "." y) →
  x = y.
Proof.
  unfold os_path_join.
  assert (String.prefix "/" (stem +:+ String "." x) =
          String.prefix "/" (stem +:+ String "." y)) as ->.
  { destruct stem as [|c stem]; [done|].
    change (String c stem +:+ String "." x)
      with (String c (stem +:+ String "." x)).
    change (String c stem +:+ String "." y)
      with (String c (stem +:+ String "." y)).
    by rewrite !prefix_char. }
  destruct (String.prefix "/" (stem +:+ String "." y)).
  - intros H. apply string_app_inv_l in H. congruence.
  - destruct (bool_decide (a = "") || ends_with_slash a); intros H;
      repeat apply string_app_inv_l in H; congruence.
Qed.

(** X4: for an archive named [stem.otb+], the extension being the only
    occurrence of [.otb+] in the name, the header document is [stem.yaml] and
    the table is [stem.csv] in the directory of the archive; the two paths
    differ, so a conversion that reaches the output leaves both files, the
    header document and the table. *)
Theorem output_names py_float py_int pathname stem :
  (∀ pre post, stem +:+ ".otb+" = pre +:+ ".otb+" +:+ post → pre = stem) →
  yaml_path pathname (stem +:+ ".otb+") = os_path_join pathname (stem +:+ ".yaml") ∧
  csv_path pathname (stem +:+ ".otb+") = os_path_join pathname (stem +:+ ".csv") ∧
  ∀ fs a h m,
    ¬ outputs_exist pathname (stem +:+ ".otb+") fs →
    tarfile_open fs (os_path_join pathname (stem +:+ ".otb+")) = Ok a →
    convert py_float py_int a = Ok (Some (h, m)) →
    let fs' := (otread py_float py_int pathname (stem +:+ ".otb+") fs).2 in
    fs' !! os_path_join pathname (stem +:+ ".yaml") = Some (FYaml h) ∧
    fs' !! os_path_join pathname (stem +:+ ".csv") = Some (FCsv m).
Proof.
  intros Hone.
  assert (yaml_path pathname (stem +:+ ".otb+")
          = os_path_join pathname (stem +:+ ".yaml")) as Hy
    by (unfold yaml_path; by rewrite replace_extension).
  assert (csv_path pathname (stem +:+ ".otb+")
          = os_path_join pathname (stem +:+ ".csv")) as Hc
    by (unfold csv_path; by rewrite replace_extension).
  split; [done|]. split; [done|].
  intros fs a h m G Ha Hconv fs'. subst fs'.
  rewrite otread_unguarded, Ha by done. simpl. rewrite Hconv. simpl.
  rewrite Hy, Hc. split; [|apply lookup_insert_eq].
  rewrite lookup_insert_ne; [apply lookup_insert_eq|].
  intros H. apply os_path_join_inj in H. discriminate H.
Qed.

Lemma output_names_witness :
  let fs' := (run (recording [emg; rms; aux] ramp)).2 in
  (∃ h, fs' !! "/data/rec.yaml" = Some (FYaml h)) ∧
  (∃ m, fs' !! "/data/rec.csv" = Some (FCsv m)).
Proof.
  intros fs'. subst fs'.
  set (a := recording [emg; rms; aux] ramp).
  assert (∀ pre post, "rec" +:+ ".otb+" = pre +:+ ".otb+" +:+ post →
                      pre = "rec") as Hone.
  { intros pre post H.
    repeat (destruct pre as [|? pre]; simpl in H;
            [by (discriminate H || done)
            |first [discriminate H | injection H as ? H; subst]]). }
  destruct (convert Numeral.float Numeral.int a) as [[[h m]|]|] eqn:Hc;
    [|vm_compute in Hc; discriminate Hc..].
  destruct (proj2 (proj2 (output_names Numeral.float Numeral.int
                            "/data" "rec" Hone)) (disk a) a h m)
    as [Hy Hcsv].
  - intros [[x Hx]|[x Hx]]; vm_compute in Hx; discriminate Hx.
  - reflexivity.
  - exact Hc.
  - split; [exists h; exact Hy | exists m; exact Hcsv].
Defined.

(** X5: a file name without [.otb+] is never converted: both output paths are
    then the path of the file itself, so [otread] raises the exception of
    line 34 when the file exists and cannot open it when it does not, and in
    both cases writes nothing. *)
Theorem no_extension py_float py_int pathname filename fs :
  (∀ pre post, filename ≠ pre +:+ ".otb+" +:+ post) →
  yaml_path pathname filename = os_path_join pathname filename ∧
  csv_path pathname filename = os_path_join pathname filename ∧
  otread py_float py_int pathname filename fs =
    (match fs !! os_path_join pathname filename with
     | Some _ => Err AlreadyProcessed
     | None => Err FileNotFoundError
     end, fs).
Proof.
  intros Habs.
  assert (yaml_path pathname filename = os_path_join pathname filename) as Hy
    by (unfold yaml_path; by rewrite replace_absent).
  assert (csv_path pathname filename = os_path_join pathname filename) as Hc
    by (unfold csv_path; by rewrite replace_absent).
  split; [done|]. split; [done|].
  destruct (fs !! os_path_join pathname filename) as [x|] eqn:Hf.
  - apply otread_guarded. left. rewrite Hy, Hf. by eexists.
  - rewrite otread_unguarded.
    + unfold tarfile_open. by rewrite Hf.
    + unfold outputs_exist. rewrite Hy, Hc, Hf. intros [[? ?]|[? ?]]; done.
Qed.

Lemma no_extension_witness :
  let fs : gmap string file :=
    {[ "/data/rec.tar" := FArchive (recording [emg] ramp) ]} in
  otread Numeral.float Numeral.int "/data" "rec.tar" fs
    = (Err AlreadyProcessed, fs) ∧
  otread Numeral.float Numeral.int "/data" "other.tar" fs
    = (Err FileNotFoundError, fs).
Proof.
  intros fs.
  assert (∀ name, name = "rec.tar" ∨ name = "other.tar" →
            ∀ pre post, name ≠ pre +:+ ".otb+" +:+ post) as Habs.
  { intros name [-> | ->] pre post H;
      repeat (destruct pre as [|? pre]; simpl in H; [discriminate H|];
              injection H as _ H);
      destruct pre; discriminate H. }
  split.
  - destruct (no_extension Numeral.float Numeral.int "/data" "rec.tar" fs
                (Habs _ (or_introl eq_refl))) as (_ & _ & ->). reflexivity.
  - destruct (no_extension Numeral.float Numeral.int "/data" "other.tar" fs
                (Habs _ (or_intror eq_refl))) as (_ & _ & ->). reflexivity.
Defined.

(** ** When the header loop ends *)

Section HeaderLoopEnds.

Variable py_float : string → option float.

Lemma read_signals_from_plugins signals : ∀ st st',
  read_signals_from py_float st signals = Ok st' →
  Forall (fun s => is_Some (ET.find "plugin" s)) signals.
Proof.
  induction signals as [|s signals IH]; intros st st' H; [constructor|].
  simpl in H. apply bind_Ok in H as (st1 & H1 & H). constructor; [|eauto].
  unfold read_signal in H1. by destruct (ET.find "plugin" s).
Qed.

Lemma read_signal_unselected st s :
  is_Some (ET.find "plugin" s) → is_selected s = false →
  read_signal py_float st s = Ok st.
Proof.
  unfold is_selected, read_signal. intros [p ->] Hs.
  apply bool_decide_eq_false in Hs. by destruct (decide _).
Qed.

Lemma read_signals_from_later signals : ∀ st,
  n_signals st ≠ O →
  Forall (fun s => is_Some (ET.find "plugin" s)) signals →
  ∃ st', read_signals_from py_float st signals = Ok st'.
Proof.
  induction signals as [|s signals IH]; intros st Hn Hp; [by eexists|].
  apply Forall_cons in Hp as [Hs Hp]. simpl.
  destruct (is_selected s) eqn:Hsel.
  - rewrite read_signal_later by done. simpl. apply IH; [simpl; lia|done].
  - rewrite read_signal_unselected by done. simpl. by apply IH.
Qed.

Lemma read_signal_first_Ok s f :
  is_selected s = true →
  float_of_entry py_float (field "fsample" s) = Ok f →
  PrimFloat.eqb f 0 = false →
  ∃ st', read_signal py_float initial_state s = Ok st' ∧ n_signals st' = 1%nat.
Proof.
  unfold is_selected, read_signal. intros Hs Hf Hz.
  destruct (ET.find "plugin" s) as [p|]; [|discriminate].
  apply bool_decide_eq_true in Hs. destruct (decide _); [|done].
  simpl. rewrite Hf. simpl. unfold reciprocal. rewrite Hz. simpl.
  by eexists.
Qed.

End HeaderLoopEnds.

Lemma read_headers_Ok_intro py_float root :
  Forall (fun s => is_Some (ET.find "plugin" s)) (ET.iter "signal" root) →
  match selected root with
  | [] => True
  | s0 :: _ =>
      ∃ f, float_of_entry py_float (field "fsample" s0) = Ok f ∧
           PrimFloat.eqb f 0 = false
  end →
  ∃ st, read_headers py_float root = Ok st.
Proof.
  unfold read_headers, selected.
  induction (ET.iter "signal" root) as [|s signals IH]; intros Hp Hsel;
    [by eexists|].
  apply Forall_cons in Hp as [Hs Hp]. simpl in *.
  destruct (is_selected s) eqn:Hs0.
  - destruct Hsel as (f & Hf & Hz).
    destruct (read_signal_first_Ok py_float s f Hs0 Hf Hz) as (st1 & -> & Hn).
    simpl. apply read_signals_from_later; [lia|done].
  - rewrite read_signal_unselected by done. simpl. by apply IH.
Qed.

(** X6: the header loop ends without an exception exactly when every signal
    node of the document, selected or not, has a [plugin] child and, if a
    node is selected, the [fsample] of the first selected node is text that
    [float] reads as a number other than zero. The [fsample] of the later
    nodes plays no part. *)
Theorem read_headers_ends py_float root :
  (∃ st, read_headers py_float root = Ok st) ↔
  Forall (fun s => is_Some (ET.find "plugin" s)) (ET.iter "signal" root) ∧
  match selected root with
  | [] => True
  | s0 :: _ =>
      ∃ f, float_of_entry py_float (field "fsample" s0) = Ok f ∧
           PrimFloat.eqb f 0 = false
  end.
Proof.
  split.
  - intros [st Hst]. split.
    + eapply read_signals_from_plugins. exact Hst.
    + apply read_headers_Ok in Hst as (_ & _ & Hsh).
      destruct (selected root) as [|s0 rest]; [done|].
      destruct Hsh as (f & ts & Hf & Hts & _). exists f. split; [done|].
      unfold reciprocal in Hts. by destruct (PrimFloat.eqb f 0).
  - intros [Hp Hsel]. by apply read_headers_Ok_intro.
Qed.

Lemma read_headers_ends_witness :
  (∃ st, read_headers Numeral.float
           (form_dock00 (recording [emg; rms; aux] ramp)) = Ok st) ∧
  read_headers Numeral.float
    (form_dock00 (recording [setting "fsample" "0" emg] ramp))
    = Err ZeroDivisionError.
Proof.
  split; [|vm_compute; reflexivity].
  apply (proj2 (read_headers_ends Numeral.float _)).
  split; [repeat constructor; vm_compute; by eexists|].
  exists 10%float. split; vm_compute; reflexivity.
Defined.

(** ** The header document *)

Lemma mapR_lookup_l {A B} (f : A → result B) l l' n x :
  mapR f l = Ok l' → l !! n = Some x → ∃ y, f x = Ok y ∧ l' !! n = Some y.
Proof.
  intros H Hn. apply mapR_Forall2 in H.
  destruct (Forall2_lookup_l _ _ _ _ _ H Hn) as (y & Hy & Hf). eauto.
Qed.

(** X7: the header document of a conversion that reaches the output lists
    the selected nodes in document order, the nodes of other plugins leaving
    no entry: entry [n] of every field comes from the [n]-th selected node,
    [description] and [unity_of_measurement] as its text ([None] when
    missing), the numeric fields as NumPy converts its text, and
    [power_supply] as 5. *)
Theorem header_document py_float py_int a h m n s :
  convert py_float py_int a = Ok (Some (h, m)) →
  selected (form_dock00 a) !! n = Some s →
  description h !! n = Some (field "description" s) ∧
  unity_of_measurement h !! n = Some (field "unity_of_measurement" s) ∧
  power_supply h !! n = Some 5%float ∧
  (∃ z, np_int py_int (field "track_index" s) = Ok z ∧
        track_index h !! n = Some z) ∧
  (∃ z, np_int py_int (field "ad_bits" s) = Ok z ∧ ad_bits h !! n = Some z) ∧
  (∃ x, np_float py_float (field "fsample" s) = Ok x ∧
        fsample h !! n = Some x) ∧
  (∃ x, np_float py_float (field "signal_gain" s) = Ok x ∧
        signal_gain h !! n = Some x) ∧
  (∃ x, np_float py_float (field "low_pass_filter" s) = Ok x ∧
        low_pass_filter h !! n = Some x) ∧
  (∃ x, np_float py_float (field "high_pass_filter" s) = Ok x ∧
        high_pass_filter h !! n = Some x).
Proof.
  intros H Hs.
  apply convert_Some in H as (st & c & sp & tn & raw & cal & H).
  destruct H as (Hst & _ & _ & _ & Hh & _).
  assert (n < n_signals st)%nat as Hn.
  { apply read_headers_Ok in Hst as (-> & _). by eapply lookup_lt_Some. }
  pose proof (power_supply_forced _ _ _ _ _ _ Hst Hh Hn) as Hps.
  apply read_headers_Ok in Hst as (_ & Hhd & _).
  pose proof (append_all_fields (selected (form_dock00 a)) empty_headers) as F.
  simpl in F. rewrite <- Hhd in F.
  destruct F as (F1 & F2 & F3 & _ & F5 & F6 & F7 & F8 & F9).
  apply coerce_Ok in Hh as (H1 & H2 & H3 & _ & H5 & H6 & H7 & H8 & H9).
  rewrite H2, H3, F2, F3, !list_lookup_fmap, Hs. simpl.
  do 3 (split; [done|]).
  rewrite F1 in H1. rewrite F5 in H5. rewrite F6 in H6. rewrite F7 in H7.
  rewrite F8 in H8. rewrite F9 in H9.
  repeat split;
    (eapply mapR_lookup_l; [eassumption|]; by rewrite list_lookup_fmap, Hs).
Qed.

Lemma header_document_witness :
  let a := recording [emg; rms; aux] ramp in
  ∃ h m, convert Numeral.float Numeral.int a = Ok (Some (h, m)) ∧
    unity_of_measurement h !! 1%nat = Some (Some "mV") ∧
    track_index h !! 1%nat = Some 2.
Proof.
  intros a.
  destruct (convert Numeral.float Numeral.int a) as [[[h m]|]|] eqn:Hc;
    [|vm_compute in Hc; discriminate Hc..].
  destruct (header_document Numeral.float Numeral.int a h m 1%nat
              (signal_node aux) Hc eq_refl)
    as (_ & Hu & _ & (z & Hz & Hti) & _).
  exists h, m. split; [reflexivity|]. split; [exact Hu|].
  vm_compute in Hz. injection Hz as <-. exact Hti.
Defined.

(** ** Channel indices *)

Lemma normalize_index_Ok ncols i :
  - ncols <= i < ncols → normalize_index ncols i = Ok (Z.to_nat (i mod ncols)).
Proof. intros H. unfold normalize_index. by destruct (decide _). Qed.

Lemma normalize_index_Err ncols i :
  ¬ (- ncols <= i < ncols) → normalize_index ncols i = Err IndexError.
Proof. intros H. unfold normalize_index. by destruct (decide _). Qed.

Lemma normalize_indices ncols index :
  (Forall (fun i => - ncols <= i < ncols) index →
   mapR (normalize_index ncols) index =
     Ok (map (fun i => Z.to_nat (i mod ncols)) index)) ∧
  (¬ Forall (fun i => - ncols <= i < ncols) index →
   mapR (normalize_index ncols) index = Err IndexError).
Proof.
  induction index as [|i index [IH1 IH2]]; [split; [done|]|].
  - intros H. destruct H. constructor.
  - split.
    + intros H. apply Forall_cons in H as [Hi H]. simpl.
      by rewrite normalize_index_Ok, IH1.
    + intros H. simpl.
      destruct (decide (- ncols <= i < ncols)) as [Hi|Hi].
      * rewrite normalize_index_Ok by done. simpl. rewrite IH2; [done|].
        intros Hrest. apply H. by constructor.
      * by rewrite normalize_index_Err.
Qed.

Lemma select_columns_Ok_inv (data : matrix) ncols index sel :
  select_columns data ncols index = Ok sel →
  Forall (fun i => - ncols <= i < ncols) index.
Proof.
  intros H. destruct (decide (Forall (fun i => - ncols <= i < ncols) index))
    as [|Hno]; [done|].
  unfold select_columns in H.
  by rewrite (proj2 (normalize_indices ncols index) Hno) in H.
Qed.



(** ** Samples *)

Lemma byte_of_Z_of_byte b : byte_of_Z (Z.of_N (Byte.to_N b)) = b.
Proof.
  unfold byte_of_Z. pose proof (Byte.to_N_bounded b) as Hb.
  rewrite Z.mod_small by lia. by rewrite N2Z.id, Byte.of_to_N.
Qed.

Lemma int16_le_range lo hi : -32768 <= int16_le lo hi <= 32767.
Proof.
  unfold int16_le. pose proof (Byte.to_N_bounded lo).
  pose proof (Byte.to_N_bounded hi). destruct (decide _); lia.
Qed.

Lemma int16_bytes_le lo hi : int16_bytes (int16_le lo hi) = (lo, hi).
Proof.
  unfold int16_bytes, int16_le.
  pose proof (Byte.to_N_bounded lo) as Hlo.
  pose proof (Byte.to_N_bounded hi) as Hhi.
  set (l := Z.of_N (Byte.to_N lo)) in *. set (h := Z.of_N (Byte.to_N hi)) in *.
  assert ((if decide (l + 256 * h < 32768) then l + 256 * h
           else l + 256 * h - 65536) mod 65536 = l + 256 * h) as ->.
  { destruct (decide _).
    - apply Z.mod_small. lia.
    - symmetry. apply Z.mod_unique with (-1); lia. }
  assert ((l + 256 * h) mod 256 = l) as ->
    by (symmetry; apply Z.mod_unique with h; lia).
  assert ((l + 256 * h) / 256 = h) as ->
    by (symmetry; apply Z.div_unique with l; lia).
  unfold l, h. by rewrite !byte_of_Z_of_byte.
Qed.

(** X9: every sample read from a buffer lies in the signed 16-bit range, and
    the buffer is recovered from the samples, low byte first: two sample
    files that decode to the same samples are the same file. *)
Theorem samples_int16 data samples :
  frombuffer_int16 data = Ok samples →
  Forall (fun v => -32768 <= v <= 32767) samples ∧ tobytes samples = data.
Proof.
  revert samples.
  assert ((∀ samples, frombuffer_int16 data = Ok samples →
             Forall (fun v => -32768 <= v <= 32767) samples ∧
             tobytes samples = data) ∧
          ∀ b samples, frombuffer_int16 (b :: data) = Ok samples →
             Forall (fun v => -32768 <= v <= 32767) samples ∧
             tobytes samples = b :: data) as [H _]; [|exact H].
  induction data as [|hi data [IH1 IH2]].
  - split; intros; simplify_eq/=. by split.
  - split; [apply IH2|]. intros lo samples H. simpl in H.
    apply bind_Ok in H as (xs & Hxs & H). injection H as <-.
    apply IH1 in Hxs as [Hr Hb]. split.
    + constructor; [apply int16_le_range|done].
    + cbn [tobytes]. by rewrite int16_bytes_le, Hb.
Qed.

Lemma samples_int16_witness :
  Forall (fun v => -32768 <= v <= 32767) [2048; -1] ∧
  tobytes [2048; -1] = [x00; x08; xff; xff].
Proof. apply (samples_int16 [x00; x08; xff; xff]). reflexivity. Defined.

(** ** The sample file, from its bytes to the selected columns *)

Lemma decode_odd data ncols index :
  Nat.Odd (length data) → decode data ncols index = Err ValueError.
Proof. intros H. unfold decode. by rewrite frombuffer_odd. Qed.

Lemma decode_misfit data n ncols index :
  length data = (2 * n)%nat → ¬ (ncols | Z.of_nat n) →
  decode data ncols index = Err ValueError.
Proof.
  intros Hn Hdiv. unfold decode.
  destruct (frombuffer_even data) as [samples Hs]; [by exists n|].
  pose proof (proj1 (frombuffer_samples data) samples Hs) as [Hlen _].
  rewrite Hs. simpl. rewrite reshape_misfit; [done|]. rewrite length_map.
  by replace (length samples) with n by lia.
Qed.

Lemma decode_fits data n ncols index :
  length data = (2 * n)%nat → 0 < ncols <= int64_max → (ncols | Z.of_nat n) →
  (0 < n)%nat ∨ ncols < 2 ^ 60 →
  Forall (fun i => - ncols <= i < ncols) index →
  ∃ sel, decode data ncols index = Ok sel.
Proof.
  intros Hn Hncols Hdiv Hsize Hidx. unfold decode.
  destruct (frombuffer_even data) as [samples Hs]; [by exists n|].
  pose proof (proj1 (frombuffer_samples data) samples Hs) as [Hlen _].
  assert (length samples = n) as Hsn by lia.
  rewrite Hs. simpl. rewrite reshape_fits; [simpl| done | |].
  - rewrite (select_columns_Ok _ _ _ _
               (proj1 (normalize_indices ncols index) Hidx)).
    by eexists.
  - rewrite length_map, Hsn. apply Z.mod_divide; [lia|done].
  - rewrite length_map, Hsn. destruct Hsize; [left; lia|by right].
Qed.

Lemma decode_layout data ncols index sel :
  decode data ncols index = Ok sel →
  0 < ncols ∧
  Z.of_nat (length data) = 2 * (Z.of_nat (length sel) * ncols) ∧
  ∀ r row j i, sel !! r = Some row → index !! j = Some i →
    ∃ lo hi,
      data !! (2 * (r * Z.to_nat ncols + Z.to_nat (i mod ncols)))%nat
        = Some lo ∧
      data !! (2 * (r * Z.to_nat ncols + Z.to_nat (i mod ncols)) + 1)%nat
        = Some hi ∧
      row !! j = Some (float_of_Z (int16_le lo hi)).
Proof.
  intros H. unfold decode in H.
  apply bind_Ok in H as (samples & Hs & H).
  apply bind_Ok in H as (full & Hfull & Hsel).
  apply reshape_Ok_inv in Hfull as (Hn & Hmod & _ & ->).
  pose proof (select_columns_Ok_inv _ _ _ _ Hsel) as Hidx.
  rewrite (select_columns_Ok _ _ _ _
             (proj1 (normalize_indices ncols index) Hidx)) in Hsel.
  injection Hsel as <-.
  pose proof (proj1 (frombuffer_samples data) samples Hs) as [Hlen Hbytes].
  set (flat := map float_of_Z samples) in *.
  set (k := Z.to_nat ncols) in *.
  assert (length flat = length samples) as Hflat
    by (unfold flat; by rewrite length_map).
  assert (0 < k)%nat as Hk by lia.
  assert (length flat / k * k = length flat)%nat as Hrows.
  { apply div_exact_rows; [done|]. unfold k. by rewrite Z2Nat.id by lia. }
  split; [lia|]. split.
  { rewrite length_map, rows_of_length. lia. }
  intros r row j i Hrow Hi.
  rewrite list_lookup_fmap in Hrow.
  destruct (rows_of _ _ _ !! r) as [frow|] eqn:Hfrow; [|done].
  injection Hrow as <-.
  assert (r < length flat / k)%nat as Hr
    by (apply lookup_lt_Some in Hfrow; by rewrite rows_of_length in Hfrow).
  apply rows_of_row_major in Hfrow as [Hfl Hfrow]; [|lia].
  set (c := Z.to_nat (i mod ncols)).
  assert (c < k)%nat as Hc.
  { unfold c, k. pose proof (Z.mod_pos_bound i ncols). lia. }
  destruct (lookup_lt_is_Some_2 samples (r * k + c)) as [x Hx]; [nia|].
  destruct (Hbytes _ _ Hx) as (lo & hi & Hlo & Hhi & ->).
  exists lo, hi. do 2 (split; [done|]).
  rewrite !list_lookup_fmap, Hi. simpl. f_equal.
  apply nth_lookup_Some. rewrite Hfrow by done. subst flat k c.
  rewrite list_lookup_fmap. simpl in Hx |- *. by rewrite Hx.
Qed.

(** C6: [decode] refuses a sample file of odd length. When it returns a
    matrix, the file holds two bytes for each of its [rows *
    track_totalnumber] samples, and entry [j] of row [r] is the signed
    16-bit number, low byte first, at sample [r * track_totalnumber + c] of
    the file, [c] the column that channel index [j] names. It returns
    whenever the sample count is a multiple of a column count that is a
    positive machine integer, the file is not empty or the column count is
    below [2 ** 60], and the channel indices are within the columns; the
    reshaping itself then gives the rows of the sample array in order. When
    the sample count is no multiple of [track_totalnumber], [decode] raises
    the ValueError of [np.reshape], and [otread] raises and writes
    nothing. *)
Theorem decode_shape py_float py_int :
  (∀ data ncols index,
     Nat.Odd (length data) → decode data ncols index = Err ValueError) ∧
  (∀ data ncols index sel,
     decode data ncols index = Ok sel →
     0 < ncols ∧
     Z.of_nat (length data) = 2 * (Z.of_nat (length sel) * ncols) ∧
     ∀ r row j i, sel !! r = Some row → index !! j = Some i →
       ∃ lo hi,
         data !! (2 * (r * Z.to_nat ncols + Z.to_nat (i mod ncols)))%nat
           = Some lo ∧
         data !! (2 * (r * Z.to_nat ncols + Z.to_nat (i mod ncols)) + 1)%nat
           = Some hi ∧
         row !! j = Some (float_of_Z (int16_le lo hi))) ∧
  (∀ data n ncols index,
     length data = (2 * n)%nat →
     0 < ncols <= int64_max → (ncols | Z.of_nat n) →
     (0 < n)%nat ∨ ncols < 2 ^ 60 →
     Forall (fun i => - ncols <= i < ncols) index →
     ∃ sel, decode data ncols index = Ok sel) ∧
  (∀ (flat : list float) ncols,
     0 < ncols <= int64_max → (ncols | Z.of_nat (length flat)) →
     flat ≠ [] ∨ ncols < 2 ^ 60 →
     ∃ m, reshape flat ncols = Ok m ∧
       Z.of_nat (length m) * ncols = Z.of_nat (length flat) ∧
       ∀ r row, m !! r = Some row →
         Z.of_nat (length row) = ncols ∧
         ∀ c, (c < Z.to_nat ncols)%nat →
              row !! c = flat !! (r * Z.to_nat ncols + c)%nat) ∧
  (∀ data n ncols index,
     length data = (2 * n)%nat → ¬ (ncols | Z.of_nat n) →
     decode data ncols index = Err ValueError) ∧
  (∀ pathname filename fs a s0 rest sp tn t p data n ncols,
     tarfile_open fs (os_path_join pathname filename) = Ok a →
     selected (form_dock00 a) = s0 :: rest →
     ET.find "signal_path" s0 = Some sp →
     ET.find "track_totalnumber" s0 = Some tn →
     text tn = Some t → py_int t = Some ncols →
     text sp = Some p → members a !! p = Some data →
     length data = (2 * n)%nat → ¬ (ncols | Z.of_nat n) →
     (∀ index,
        read_signals py_int (members a) sp tn index = Err ValueError) ∧
     ∃ e, otread py_float py_int pathname filename fs = (Err e, fs)).
Proof.
  split; [apply decode_odd|]. split; [apply decode_layout|].
  split; [apply decode_fits|]. split; [|split; [apply decode_misfit|]].
  - intros flat ncols Hn Hdiv Hsize.
    assert (Z.of_nat (length flat) mod ncols = 0) as Hmod
      by (apply Z.mod_divide; [lia|done]).
    eexists. split.
    { apply reshape_fits; [done..|].
      destruct Hsize; [left; by destruct flat|by right]. }
    set (k := Z.to_nat ncols).
    assert (0 < k)%nat as Hk by lia.
    assert (length flat / k * k = length flat)%nat as Hrows.
    { apply div_exact_rows; [done|]. unfold k. by rewrite Z2Nat.id by lia. }
    split; [rewrite rows_of_length; lia|].
    intros r row Hrow.
    apply rows_of_row_major in Hrow as [Hlen Hrow]; [|lia].
    split; [lia|done].
  - intros pathname filename fs a s0 rest sp tn t p data n ncols.
    intros Ha Hsel Hsp Htn Ht Hint Hp Hdata Hlen Hdiv.
    assert (∀ index,
              read_signals py_int (members a) sp tn index = Err ValueError)
      as Hread.
    { intros index. unfold read_signals, int_of_text, open_member.
      rewrite Ht, Hint, Hp, Hdata. simpl. by eapply decode_misfit. }
    split; [done|].
    eapply otread_convert_Err; [exact Ha|].
    unfold convert. apply bind_Err_later. intros st Hst.
    apply read_headers_Ok in Hst as (_ & _ & Hsh). rewrite Hsel in Hsh.
    destruct Hsh as (f & ts & _ & _ & ->). simpl. rewrite Hsp, Htn.
    apply bind_Err_later. intros h _. apply bind_Err.
    rewrite Hread. by eexists.
Qed.

Lemma decode_shape_witness :
  decode [x00; x08; xff] 1 [0] = Err ValueError ∧
  (∃ sel, decode (tobytes ramp) 3 [0; -1] = Ok sel ∧
     sel = [[2048; 2]; [3; 5]; [6; 8]; [-9; -11]]%float ∧
     ∃ lo hi, tobytes ramp !! 22%nat = Some lo ∧
       tobytes ramp !! 23%nat = Some hi ∧ int16_le lo hi = -11) ∧
  (∃ m, reshape [1; 2; 3; 4; 5; 6]%float 3 = Ok m ∧
     m = [[1; 2; 3]; [4; 5; 6]]%float) ∧
  decode (tobytes [1; 2; 3; 4]) 3 [0] = Err ValueError ∧
  let a := recording [emg] [1; 2; 3; 4] in
  ∃ e, run a = (Err e, disk a).
Proof.
  pose proof (decode_shape Numeral.float Numeral.int)
    as (H1 & H2 & H3 & H4 & H5 & H6).
  split; [|split; [|split; [|split]]].
  - apply H1. by exists 1%nat.
  - destruct (H3 (tobytes ramp) 12%nat 3 [0; -1]) as [sel Hsel].
    + reflexivity.
    + vm_compute. split; [done|]. intros H; discriminate H.
    + exists 4. reflexivity.
    + left. lia.
    + repeat constructor; lia.
    + exists sel. split; [exact Hsel|].
      destruct (H2 _ _ _ _ Hsel) as (_ & _ & Hrow).
      assert (sel = [[2048; 2]; [3; 5]; [6; 8]; [-9; -11]]%float) as ->
        by (vm_compute in Hsel; congruence).
      split; [reflexivity|].
      destruct (Hrow 3%nat [-9; -11]%float 1%nat (-1) eq_refl eq_refl)
        as (lo & hi & Hlo & Hhi & _).
      exists lo, hi. split; [exact Hlo|]. split; [exact Hhi|].
      vm_compute in Hlo, Hhi. injection Hlo as <-. injection Hhi as <-.
      reflexivity.
  - destruct (H4 [1; 2; 3; 4; 5; 6]%float 3) as (m & Hm & _).
    + vm_compute. split; [done|]. intros H; discriminate H.
    + exists 2. reflexivity.
    + by left.
    + exists m. split; [done|]. vm_compute in Hm. congruence.
  - apply (H5 _ 4%nat); [reflexivity|].
    intros [q Hq]. change (Z.of_nat 4) with 4 in Hq. lia.
  - intros a.
    eapply (H6 "/data" "rec.otb+" (disk a) a (signal_node emg) []
              (node "signal_path" "rec.sig") (node "track_totalnumber" "3")
              "3" "rec.sig" (tobytes [1; 2; 3; 4]) 4%nat 3);
      try (vm_compute; reflexivity).
    intros [q Hq]. change (Z.of_nat 4) with 4 in Hq. lia.
Defined.

(** An empty sample file has a sample count that every [track_totalnumber]
    divides, yet with [track_totalnumber = 2 ** 60] the reshaping fails and
    the call raises. *)
Lemma decode_shape_too_wide :
  let a :=
    recording [setting "track_totalnumber" "1152921504606846976" emg] [] in
  members a !! "rec.sig" = Some [] ∧
  frombuffer_int16 [] = Ok [] ∧
  (2 ^ 60 | Z.of_nat (length ([] : list Z))) ∧
  reshape (map float_of_Z []) (2 ^ 60) = Err ValueError ∧
  run a = (Err ValueError, disk a).
Proof.
  intros a. split; [reflexivity|]. split; [reflexivity|].
  split; [by exists 0|]. split; by vm_compute.
Qed.

(** ** A conversion that goes through *)

Section Success.

Variable py_float : string → option float.
Variable py_int : string → option Z.





End Success.



(** ** Paths of the batch driver *)

Lemma ends_with_slash_cons c s :
  ends_with_slash (String c s) =
  if String.eqb s "" then Ascii.eqb c "/" else ends_with_slash s.
Proof.
  destruct s as [|d s]; [|done]. simpl.
  by destruct (Ascii.eqb c "/").
Qed.

Lemma cut_last_slash_name f :
  has_slash f = false → cut_last_slash f = ("", f).
Proof.
  induction f as [|c f IH]; [done|]. simpl. intros H.
  apply orb_false_iff in H as [Hc Hf]. by rewrite IH, Hc.
Qed.

Lemma cut_last_slash_dir d f :
  has_slash f = false → ends_with_slash d = true →
  cut_last_slash (d +:+ f) = (d, f).
Proof.
  intros Hf. induction d as [|c d IH]; [done|].
  rewrite ends_with_slash_cons. intros Hd.
  change (String c d +:+ f) with (String c (d +:+ f)).
  cbn [cut_last_slash]. destruct d as [|c' d].
  - simpl in Hd. change ("" +:+ f) with f.
    by rewrite cut_last_slash_name, Hd.
  - rewrite IH by done. done.
Qed.

Lemma ends_with_slash_app d : ends_with_slash (d +:+ "/") = true.
Proof.
  induction d as [|c d IH]; [done|].
  change (String c d +:+ "/") with (String c (d +:+ "/")).
  rewrite ends_with_slash_cons. by destruct d.
Qed.

Lemma all_slashes_ends d :
  all_slashes d = true → d = "" ∨ ends_with_slash d = true.
Proof.
  induction d as [|c d IH]; [by left|]. intros H. right.
  rewrite ends_with_slash_cons. cbn [all_slashes] in H.
  apply andb_true_iff in H as [Hc Hd].
  destruct (IH Hd) as [-> | He]; [done|]. by destruct d.
Qed.

Lemma all_slashes_app d : all_slashes (d +:+ "/") = all_slashes d.
Proof.
  induction d as [|c d IH]; [done|]. simpl. by rewrite IH.
Qed.

Lemma rstrip_slash_app d : rstrip_slash (d +:+ "/") = rstrip_slash d.
Proof.
  induction d as [|c d IH]; [done|]. simpl. by rewrite IH.
Qed.

Lemma rstrip_slash_id d : ends_with_slash d = false → rstrip_slash d = d.
Proof.
  induction d as [|c d IH]; [done|]. rewrite ends_with_slash_cons.
  simpl. destruct d as [|c' d].
  - simpl. by intros ->.
  - intros H. rewrite (IH H). done.
Qed.

Lemma prefix_slash_name f :
  has_slash f = false → String.prefix "/" f = false.
Proof.
  destruct f as [|c f]; [done|]. intros H. cbn [has_slash] in H.
  apply orb_false_iff in H as [Hc _]. rewrite prefix_char.
  destruct (Ascii.ascii_dec "/" c) as [<-|]; [discriminate Hc|done].
Qed.

Lemma string_app_assoc a b c : (a +:+ b) +:+ c = a +:+ (b +:+ c).
Proof. induction a as [|x a IH]; simpl; [done|by rewrite IH]. Qed.

(** What the driver passes to [otread] for the archive [f] of the directory
    [d]. *)
Lemma split_join d f :
  has_slash f = false →
  ends_with_slash d = false ∨ all_slashes d = true →
  os_path_split (os_path_join d f) = (d, f).
Proof.
  intros Hf Hd. unfold os_path_join. rewrite prefix_slash_name by done.
  destruct (decide (d = "")) as [->|Hne].
  { simpl. unfold os_path_split. by rewrite cut_last_slash_name. }
  rewrite bool_decide_eq_false_2 by done. simpl.
  destruct (ends_with_slash d) eqn:He.
  - destruct Hd as [Hd|Hd]; [discriminate|].
    unfold os_path_split. rewrite cut_last_slash_dir by done.
    by rewrite Hd, andb_false_r.
  - unfold os_path_split.
    change (d +:+ String "/" f) with (d +:+ ("/" +:+ f)).
    rewrite <- (string_app_assoc d "/" f).
    rewrite (cut_last_slash_dir (d +:+ "/") f Hf (ends_with_slash_app d)).
    rewrite all_slashes_app, rstrip_slash_app, rstrip_slash_id by done.
    assert (all_slashes d = false) as ->.
    { apply not_true_is_false. intros H.
      apply all_slashes_ends in H as [?|H]; congruence. }
    by destruct d.
Qed.

(** X11: the driver hands over what it globbed. For the archive named [f]
    (a name without slash) in the directory [d] (written without a closing
    slash, or made of slashes only), [os.path.split] gives back [d] and [f]
    from the path [os.path.join(d, f)], so the driver run on that one path
    does what [otread(d, f)] does and warns about [f] when it raises. *)
Theorem main_single py_float py_int d f fs :
  has_slash f = false →
  ends_with_slash d = false ∨ all_slashes d = true →
  os_path_split (os_path_join d f) = (d, f) ∧
  main py_float py_int [os_path_join d f] fs =
    (match (otread py_float py_int d f fs).1 with
     | Ok _ => []
     | Err _ => [f]
     end, (otread py_float py_int d f fs).2).
Proof.
  intros Hf Hd. pose proof (split_join d f Hf Hd) as Hs.
  split; [done|]. simpl. rewrite Hs.
  by destruct (otread py_float py_int d f fs) as [[u|e] fs'].
Qed.

Lemma main_single_witness :
  let a := recording [emg; rms; aux] ramp in
  os_path_split "/data/rec.otb+" = ("/data", "rec.otb+") ∧
  main Numeral.float Numeral.int ["/data/rec.otb+"] (disk a) = ([], (run a).2).
Proof.
  intros a.
  destruct (main_single Numeral.float Numeral.int "/data" "rec.otb+" (disk a))
    as [Hs Hm]; [reflexivity|by left|].
  split; [exact Hs|].
  change (os_path_join "/data" "rec.otb+") with "/data/rec.otb+" in Hm.
  rewrite Hm. unfold run. by f_equal.
Defined.
